(** * Lookup/Ibis client connection: a shallow embedding of
      [ibisclient/connection.py] and the properties of its transport layer.

    Python [str] values are modelled as [string], read as the UTF-8 encoding
    of the text (so [urllib.parse.quote] works byte by byte, as it does after
    its own [encode("utf-8")]).  Python dictionaries are insertion-ordered, and
    [urllib.parse.urlencode] depends on that order, so a dictionary is an
    association list with unique keys.  Dictionaries, sessions and connections
    that the code mutates live in an explicit store and are passed around by
    location. *)

From Stdlib Require Import ZArith Ascii String List Lia Bool.
From stdpp Require Import base option list gmap strings pretty.

Local Open Scope Z_scope.

#[local] Arguments String.append !_ _ / : simpl nomatch.

(** ** Strings *)

Module Str.

Definition startswith (p s : string) : bool := String.prefix p s.

Fixpoint last_char (s : string) : option ascii :=
  match s with
  | EmptyString => None
  | String c EmptyString => Some c
  | String _ r => last_char r
  end.

(** [s.endswith(c)] for a one-character suffix. *)
Definition endswith_char (c : ascii) (s : string) : bool :=
  match last_char s with
  | Some c' => if decide (c' = c) then true else false
  | None => false
  end.

(** [s[1:]] *)
Definition tail (s : string) : string :=
  match s with
  | EmptyString => EmptyString
  | String _ r => r
  end.

Fixpoint mem (c : ascii) (s : string) : bool :=
  match s with
  | EmptyString => false
  | String c' r => if decide (c' = c) then true else mem c r
  end.

Fixpoint count (c : ascii) (s : string) : nat :=
  match s with
  | EmptyString => 0%nat
  | String c' r => ((if decide (c' = c) then 1 else 0) + count c r)%nat
  end.

(** [s.replace(a, b)] for single characters. *)
Fixpoint replace_char (a b : ascii) (s : string) : string :=
  match s with
  | EmptyString => EmptyString
  | String c r => String (if decide (c = a) then b else c) (replace_char a b r)
  end.

(** [sep.join(xs)] on a list of [str]. *)
Fixpoint join (sep : string) (xs : list string) : string :=
  match xs with
  | [] => ""
  | [x] => x
  | x :: r => x +:+ sep +:+ join sep r
  end.

(** [s.split(c)] for a one-character separator: Python returns the list of
    fields, which is never empty ([("").split(",") == [""]]). *)
Fixpoint split (c : ascii) (s : string) : list string :=
  match s with
  | EmptyString => [""]
  | String c' r =>
      if decide (c' = c) then "" :: split c r
      else match split c r with
           | f :: fs => String c' f :: fs
           | [] => [String c' ""]
           end
  end.

Definition is_digit (c : ascii) : bool :=
  let n := N_of_ascii c in ((48 <=? n) && (n <=? 57))%N.

Definition is_upper (c : ascii) : bool :=
  let n := N_of_ascii c in ((65 <=? n) && (n <=? 90))%N.

Definition is_lower (c : ascii) : bool :=
  let n := N_of_ascii c in ((97 <=? n) && (n <=? 122))%N.

Fixpoint all (p : ascii -> bool) (s : string) : bool :=
  match s with
  | EmptyString => true
  | String c r => p c && all p r
  end.

End Str.

(** ** [urllib.parse]: [quote], [quote_plus], [urlencode] *)

Module Urllib.

(** [_ALWAYS_SAFE]: letters, digits and [_.-~]. *)
Definition always_safe (c : ascii) : bool :=
  Str.is_upper c || Str.is_lower c || Str.is_digit c || Str.mem c "_.-~".

Definition hex_digit (n : N) : ascii :=
  match n with
  | 0 => "0" | 1 => "1" | 2 => "2" | 3 => "3" | 4 => "4" | 5 => "5"
  | 6 => "6" | 7 => "7" | 8 => "8" | 9 => "9" | 10 => "A" | 11 => "B"
  | 12 => "C" | 13 => "D" | 14 => "E" | _ => "F"
  end%N%char.

(** ['%{:02X}'.format(byte)] *)
Definition percent_byte (c : ascii) : string :=
  let n := N_of_ascii c in
  String "%" (String (hex_digit (n / 16)) (String (hex_digit (n mod 16)) ""))%N.

(** The per-byte quoter of [quote_from_bytes]. *)
Definition quoter (safe : string) (c : ascii) : string :=
  if always_safe c || Str.mem c safe then String c "" else percent_byte c.

(** [quote(string, safe)]: every byte of the UTF-8 encoding that is not
    safe becomes [%XX]. *)
Fixpoint quote (safe : string) (s : string) : string :=
  match s with
  | EmptyString => EmptyString
  | String c r => quoter safe c +:+ quote safe r
  end.

(** [quote_plus(string, safe='')]: like [quote], with spaces kept by
    [quote] and then replaced by plus signs. *)
Definition quote_plus (s : string) : string :=
  if Str.mem " " s
  then Str.replace_char " " "+" (quote " " s)
  else quote "" s.

(** [k + '=' + v] for one item of [urlencode]. *)
Definition encode_pair (kv : string * string) : string :=
  quote_plus (fst kv) +:+ "=" +:+ quote_plus (snd kv).

(** [urlencode(query)] for a dictionary of strings: ['&'.join(l)]. *)
Definition urlencode (query : list (string * string)) : string :=
  Str.join "&" (encode_pair <$> query).

End Urllib.

(** ** Dictionaries *)

Module Dict.

(** [dict V] is a notation rather than a definition, so that the list
    lemmas apply to dictionaries as they are. *)
Abbreviation dict V := (list (string * V)).

Definition keys {V} (d : dict V) : list string := fst <$> d.

(** No key occurs twice: the representation invariant of a dictionary. *)
Definition wf {V} (d : dict V) : Prop := NoDup (keys d).

Fixpoint get {V} (k : string) (d : dict V) : option V :=
  match d with
  | [] => None
  | (k', v) :: r => if decide (k' = k) then Some v else get k r
  end.

(** [k in d] *)
Definition mem {V} (k : string) (d : dict V) : bool :=
  match get k d with Some _ => true | None => false end.

(** [d[k] = v]: an existing key keeps its position, a new key goes last. *)
Fixpoint set {V} (k : string) (v : V) (d : dict V) : dict V :=
  match d with
  | [] => [(k, v)]
  | (k', v') :: r =>
      if decide (k' = k) then (k', v) :: r else (k', v') :: set k v r
  end.

Definition map_values {V W} (f : V -> W) (d : dict V) : dict W :=
  (fun kv => (fst kv, f (snd kv))) <$> d.

End Dict.

Import Dict.

(** ** Exceptions and results *)

Inductive exn : Type :=
| TypeError
| ValueError
| IndexError
| KeyError (key : string)
| Dangling                    (* a location that was never allocated *)
| Unmodelled (what : string)  (* behaviour outside the modelled fragment *)
| Fault (name : string).      (* raised by an external collaborator *)

Inductive res (A : Type) : Type :=
| Ret (a : A)
| Raise (e : exn).
Arguments Ret {A} a.
Arguments Raise {A} e.

#[global] Instance res_ret : MRet res := fun _ a => Ret a.
#[global] Instance res_bind : MBind res := fun _ _ f m =>
  match m with
  | Ret a => f a
  | Raise e => Raise e
  end.

(** ** Parameter values *)

(** [datetime.date]: the fields [year], [month], [day]. *)
Record date : Type := Date { year : Z; month : Z; day : Z }.

Definition is_leap (y : Z) : bool :=
  ((y mod 4 =? 0) && negb (y mod 100 =? 0)) || (y mod 400 =? 0).

Definition days_in_month (y m : Z) : Z :=
  match m with
  | 2 => if is_leap y then 29 else 28
  | 4 | 6 | 9 | 11 => 30
  | _ => 31
  end.

(** The dates Python can construct: [MINYEAR = 1], [MAXYEAR = 9999]. *)
Definition valid_date (d : date) : Prop :=
  1 <= year d <= 9999 /\ 1 <= month d <= 12 /\
  1 <= day d <= days_in_month (year d) (month d).

(** The values a parameter map can hold, one constructor per branch of the
    [isinstance] chain of [_params_to_strings]. *)
#[warnings="-register-all"]
Inductive value : Type :=
| VNone
| VBool (b : bool)
| VDate (d : date)
| VList (xs : list value)
| VTuple (xs : list value)
| VDto (encoded : res string)
| VInt (z : Z)
| VObj (shown : res string)
| VStr (s : string).

(** Modelled from the spec: [IbisDto.encoded_string()] is defined in
    [ibisclient/dto.py], which is not part of the sources; a domain-reference
    object supplies "its own canonical encoded-string representation".  The
    call is the object's own code, so [VDto] carries its outcome: the string
    it returns or the exception it raises. *)
Definition encoded_string (encoded : res string) : res string := encoded.

(** [str(value)] for the remaining scalars: an [int] prints in decimal; any
    other object runs its own [__str__], so [VObj] carries the outcome of
    that call: the string it returns or the exception it raises. *)
Definition py_str (v : value) : res string :=
  match v with
  | VInt z => Ret (pretty z)
  | VObj shown => shown
  | VStr s => Ret s
  | VBool true => Ret "True"
  | VBool false => Ret "False"
  | VNone => Ret "None"
  | _ => Raise (Unmodelled "str")
  end.

Definition _MONTHS : list string :=
  ["Jan"; "Feb"; "Mar"; "Apr"; "May"; "Jun";
   "Jul"; "Aug"; "Sep"; "Oct"; "Nov"; "Dec"].

(** [xs[i]] on a Python list: negative indices count from the end, anything
    out of range raises [IndexError]. *)
Definition py_index {A} (xs : list A) (i : Z) : res A :=
  let n := Z.of_nat (length xs) in
  let j := if i <? 0 then i + n else i in
  if (0 <=? j) && (j <? n)
  then match xs !! Z.to_nat j with
       | Some x => Ret x
       | None => Raise IndexError
       end
  else Raise IndexError.

(** ["%02d" % z] *)
Definition fmt_02d (z : Z) : string :=
  if (0 <=? z) && (z <? 10) then "0" +:+ pretty z else pretty z.

(** ["%d" % z] *)
Definition fmt_d (z : Z) : string := pretty z.

(** [",".join(value)]: every item must be a [str]. *)
Fixpoint str_items (xs : list value) : res (list string) :=
  match xs with
  | [] => Ret []
  | VStr s :: r => ss ← str_items r; Ret (s :: ss)
  | _ :: _ => Raise TypeError
  end.

Definition comma_join (xs : list value) : res string :=
  ss ← str_items xs; Ret (Str.join "," ss).

(** The body of the loop of [_params_to_strings] for a value that is not
    [None]: the [isinstance] chain, in the order of the source. *)
Definition to_wire (v : value) : res string :=
  match v with
  | VBool b => if b then Ret "true" else Ret "false"
  | VDate d =>
      mon ← py_index _MONTHS (month d - 1);
      Ret (fmt_02d (day d) +:+ " " +:+ mon +:+ " " +:+ fmt_d (year d))
  | VList xs | VTuple xs => comma_join xs
  | VDto e => encoded_string e
  | VStr s => Ret s
  | other => py_str other
  end.

Fixpoint params_loop (items : list (string * value)) (new_params : dict string)
  : res (dict string) :=
  match items with
  | [] => Ret new_params
  | (key, VNone) :: rest => params_loop rest new_params
  | (key, v) :: rest =>
      s ← to_wire v; params_loop rest (Dict.set key s new_params)
  end.

(** [IbisClientConnection._params_to_strings]: a fresh dictionary with the
    values of [params] turned into strings, [None] values left out. *)
Definition _params_to_strings (params : dict value) : res (dict string) :=
  params_loop params [].

(** ** String formatting with a mapping: [path % path_params] *)

(** The modelled fragment of [str % dict] is: literal text, [%%], and
    [%(key)s] with no flags, width or precision.  The scanner is CPython's,
    as a state machine over the format string; [%(key)%] is an unsupported
    format character, as is a format string that ends inside a specifier. *)
Inductive fmt_state : Type :=
| FLit                              (* copying literal text *)
| FPct                              (* just after a percent sign *)
| FKey (depth : nat) (acc : string) (* inside the parentheses of a key *)
| FConv (v : string).               (* key looked up, conversion expected *)

Fixpoint fmt_go (st : fmt_state) (fmt : string) (d : dict string) : res string :=
  match fmt with
  | EmptyString =>
      match st with
      | FLit => Ret ""
      | _ => Raise ValueError       (* incomplete format / format key *)
      end
  | String c r =>
      match st with
      | FLit =>
          if decide (c = "%"%char) then fmt_go FPct r d
          else out ← fmt_go FLit r d; Ret (String c out)
      | FPct =>
          if decide (c = "%"%char) then out ← fmt_go FLit r d; Ret (String "%" out)
          else if decide (c = "("%char) then fmt_go (FKey 1 "") r d
          else Raise (Unmodelled "format")
      | FKey depth acc =>
          if decide (c = ")"%char) then
            match depth with
            | 1%nat | 0%nat =>
                match Dict.get acc d with
                | Some v => fmt_go (FConv v) r d
                | None => Raise (KeyError acc)
                end
            | S depth' => fmt_go (FKey depth' (acc +:+ String c "")) r d
            end
          else if decide (c = "("%char)
               then fmt_go (FKey (S depth) (acc +:+ String c "")) r d
               else fmt_go (FKey depth (acc +:+ String c "")) r d
      | FConv v =>
          if decide (c = "s"%char) then out ← fmt_go FLit r d; Ret (v +:+ out)
          else if decide (c = "%"%char) then Raise ValueError
          else Raise (Unmodelled "format")
      end
  end.

(** [fmt % d] for a dictionary [d] of strings. *)
Definition py_format (fmt : string) (d : dict string) : res string :=
  fmt_go FLit fmt d.

(** ** The store: dictionaries, sessions, connections, and the network *)

Definition loc : Type := nat.

(** The part of a [requests.Session] the connection touches. *)
Record PySession : Type := Session {
  auth : option (string * string);
  verify : bool
}.

(** The fields of an [IbisClientConnection] object. *)
Record IbisClientConnection : Type := Connection {
  host : string;
  port : Z;
  url_base : string;
  session : loc;
  username : option string;
  password : option string
}.

(** What [session.request(method, url, data=..., headers=...)] puts on the
    wire: besides its arguments, the session's [auth] and [verify] as they
    are at the time of the call. *)
Record request : Type := Request {
  rq_method : string;
  rq_url : string;
  rq_headers : dict string;
  rq_data : option (dict string);
  rq_auth : option (string * string);
  rq_verify : bool
}.

(** The fields of a [requests.Response] that [invoke_method] reads. *)
Record response : Type := Response {
  headers : dict string;
  status_code : Z;
  reason : string;
  text : string;
  content : string
}.

Record world : Type := World {
  dicts : gmap loc (dict string);
  sessions : gmap loc PySession;
  conns : gmap loc IbisClientConnection;
  sent : list request;          (* requests made so far, oldest first *)
  warned : list string          (* warnings issued so far *)
}.

Definition empty_world : world := World ∅ ∅ ∅ [] [].

Definition with_dicts (f : gmap loc (dict string) -> gmap loc (dict string))
    (w : world) : world :=
  World (f (dicts w)) (sessions w) (conns w) (sent w) (warned w).
Definition with_sessions (f : gmap loc PySession -> gmap loc PySession)
    (w : world) : world :=
  World (dicts w) (f (sessions w)) (conns w) (sent w) (warned w).
Definition with_conns
    (f : gmap loc IbisClientConnection -> gmap loc IbisClientConnection)
    (w : world) : world :=
  World (dicts w) (sessions w) (f (conns w)) (sent w) (warned w).

(** Computations that read and write the store and may raise. *)
Definition M (A : Type) : Type := world -> res A * world.

#[global] Instance M_ret : MRet M := fun _ a w => (Ret a, w).
#[global] Instance M_bind : MBind M := fun _ _ f m w =>
  match m w with
  | (Ret a, w') => f a w'
  | (Raise e, w') => (Raise e, w')
  end.

Definition lift {A} (r : res A) : M A := fun w => (r, w).

Definition fresh_loc {V} (m : gmap loc V) : loc := fresh (dom m).

Definition new_dict (d : dict string) : M loc := fun w =>
  let l := fresh_loc (dicts w) in (Ret l, with_dicts <[l := d]> w).
Definition get_dict (l : loc) : M (dict string) := fun w =>
  match dicts w !! l with
  | Some d => (Ret d, w)
  | None => (Raise Dangling, w)
  end.
Definition put_dict (l : loc) (d : dict string) : M unit := fun w =>
  (Ret tt, with_dicts <[l := d]> w).

Definition new_session (s : PySession) : M loc := fun w =>
  let l := fresh_loc (sessions w) in (Ret l, with_sessions <[l := s]> w).
Definition get_session (l : loc) : M PySession := fun w =>
  match sessions w !! l with
  | Some s => (Ret s, w)
  | None => (Raise Dangling, w)
  end.
Definition put_session (l : loc) (s : PySession) : M unit := fun w =>
  (Ret tt, with_sessions <[l := s]> w).

Definition new_conn (c : IbisClientConnection) : M loc := fun w =>
  let l := fresh_loc (conns w) in (Ret l, with_conns <[l := c]> w).
Definition get_conn (l : loc) : M IbisClientConnection := fun w =>
  match conns w !! l with
  | Some c => (Ret c, w)
  | None => (Raise Dangling, w)
  end.
Definition put_conn (l : loc) (c : IbisClientConnection) : M unit := fun w =>
  (Ret tt, with_conns <[l := c]> w).

Definition warn (msg : string) : M unit := fun w =>
  (Ret tt, World (dicts w) (sessions w) (conns w) (sent w) (warned w ++ [msg])).

(** ** [IbisClientConnection] *)

Definition set_auth (a : option (string * string)) (s : PySession) : PySession :=
  Session a (verify s).
Definition set_verify (v : bool) (s : PySession) : PySession :=
  Session (auth s) v.
Definition set_conn_username (u : option string) (c : IbisClientConnection)
  : IbisClientConnection :=
  Connection (host c) (port c) (url_base c) (session c) u (password c).
Definition set_conn_password (p : option string) (c : IbisClientConnection)
  : IbisClientConnection :=
  Connection (host c) (port c) (url_base c) (session c) (username c) p.

(** The pair [_update_authorization] stores in [session.auth]. *)
Definition resolved_credentials (c : IbisClientConnection) : string * string :=
  (match username c with Some u => u | None => "anonymous" end,
   match password c with Some p => p | None => "" end).

Definition _update_authorization (self : loc) : M unit :=
  c ← get_conn self;
  s ← get_session (session c);
  put_session (session c) (set_auth (Some (resolved_credentials c)) s).

Definition set_username (self : loc) (u : option string) : M unit :=
  c ← get_conn self;
  put_conn self (set_conn_username u c);;
  _update_authorization self.

Definition set_password (self : loc) (p : option string) : M unit :=
  c ← get_conn self;
  put_conn self (set_conn_password p c);;
  _update_authorization self.

Definition check_certs_warning : string :=
  "Setting check_certs=False is dangerous and may not be supported in a future release of ibisclient.".

(** [IbisClientConnection.__init__]; [session_arg = None] is the default
    [session=None], for which a new [requests.Session()] is created. *)
Definition __init__ (host_ : string) (port_ : Z) (url_base_ : string)
    (check_certs : bool) (session_arg : option loc) : M loc :=
  s ← match session_arg with
      | None => new_session (Session None true)
      | Some s => _ ← get_session s; mret s
      end;
  let base1 :=
    if negb (Str.startswith "/" url_base_) then "/" +:+ url_base_ else url_base_ in
  let base2 :=
    if negb (Str.endswith_char "/" base1) then base1 +:+ "/" else base1 in
  (if negb check_certs
   then (so ← get_session s;
         put_session s (set_verify false so);;
         warn check_certs_warning)
   else mret tt);;
  self ← new_conn (Connection host_ port_ base2 s None None);
  set_username self (Some "anonymous");;
  mret self.

(** The loop [for key, value in path_params.items(): path_params[key] =
    quote_plus(value)], which walks the live dictionary by position while
    storing into it; [n] counts the items still to visit. *)
Fixpoint quote_items (n : nat) (i : nat) (l : loc) : M unit :=
  match n with
  | O => mret tt
  | S n' =>
      d ← get_dict l;
      match d !! i with
      | Some (key, v) =>
          put_dict l (Dict.set key (Urllib.quote_plus v) d);;
          quote_items n' (S i) l
      | None => mret tt
      end
  end.

(** [IbisClientConnection._build_url]; the two parameter maps are passed by
    reference. *)
Definition _build_url (self : loc) (path : string)
    (path_params query_params : loc) : M string :=
  d ← get_dict path_params;
  quote_items (length d) 0 path_params;;
  pp ← get_dict path_params;
  path1 ← lift (py_format path pp);
  qp ← get_dict query_params;
  (if negb (Dict.mem "flatten" qp)
   then put_dict query_params (Dict.set "flatten" "true" qp)
   else mret tt);;
  qp' ← get_dict query_params;
  let path2 := path1 +:+ "?" +:+ Urllib.urlencode qp' in
  c ← get_conn self;
  if Str.startswith "/" path2
  then mret (url_base c +:+ Str.tail path2)
  else mret (url_base c +:+ path2).

(** ** Results of an invocation *)

(** Modelled from the spec: [IbisError] is defined in [ibisclient/dto.py],
    which is not part of the sources.  It is a "structured record with at
    least [status], [code], [message], [details]"; every field of a new
    object is [None] until it is given or assigned. *)
Record IbisError : Type := MkError {
  status : option Z;
  code : option string;
  message : option string;
  details : option string
}.

(** [error.message = m] and [error.details = d] *)
Definition set_message (m : string) (e : IbisError) : IbisError :=
  MkError (status e) (code e) (Some m) (details e).
Definition set_details (d : string) (e : IbisError) : IbisError :=
  MkError (status e) (code e) (message e) (Some d).

(** Modelled from the spec: [IbisResult] is defined in [ibisclient/dto.py],
    which is not part of the sources.  It is "a tagged union of
    [Success(payload)] and [Failure(Error)]"; an [IbisResult()] whose [error]
    field has been assigned is a [Failure]. *)
Inductive IbisResult : Type :=
| Success (payload : string)
| Failure (error : IbisError).

(** ASCII lower case, for the case-insensitive header dictionary of
    [requests]. *)
Definition lower_char (c : ascii) : ascii :=
  if Str.is_upper c then ascii_of_N (N_of_ascii c + 32) else c.

Fixpoint lower (s : string) : string :=
  match s with
  | EmptyString => EmptyString
  | String c r => String (lower_char c) (lower r)
  end.

(** [response.headers[name]]: the lookup ignores case and raises [KeyError]
    when the header is absent. *)
Fixpoint header_get (name : string) (hs : dict string) : res string :=
  match hs with
  | [] => Raise (KeyError (lower name))
  | (k, v) :: r =>
      if decide (lower k = lower name) then Ret v else header_get name r
  end.

Section Invoke.

(** The server and everything between it and [session.request]: given the
    requests made before and the present one, a response or a fault. *)
Variable transport : list request -> request -> res response.

(** [IbisResultParser().parse_xml], from [ibisclient/dto.py]. *)
Variable parse_xml : string -> res IbisResult.

(** The constructor call [IbisError({"status": s, "code": c})].  The class
    is defined in [ibisclient/dto.py], which is not part of the sources: what
    the new object keeps of the two entries is decided there, so the
    constructor is a parameter. *)
Variable new_error : Z -> string -> IbisError.

(** One round trip: the request is recorded, the transport answers. *)
Definition round_trip (rq : request) : M response := fun w =>
  (transport (sent w) rq,
   World (dicts w) (sessions w) (conns w) (sent w ++ [rq]) (warned w)).

(** [self.session.request(method, url, data=data, headers=headers)] *)
Definition session_request (s : loc) (method url : string)
    (data : option (dict string)) (hdrs : dict string) : M response :=
  so ← get_session s;
  round_trip (Request method url hdrs data (auth so) (verify so)).

(** [IbisClientConnection.invoke_method] *)
Definition invoke_method (self : loc) (method path : string)
    (path_params query_params form_params : dict value) : M IbisResult :=
  pp ← lift (_params_to_strings path_params);
  path_params ← new_dict pp;
  qp ← lift (_params_to_strings query_params);
  query_params ← new_dict qp;
  fp ← lift (_params_to_strings form_params);
  form_params ← new_dict fp;
  c ← get_conn self;
  rel ← _build_url self path path_params query_params;
  let url := "https://" +:+ host c +:+ ":" +:+ pretty (port c) +:+ rel in
  let hdrs := [("Accept", "application/xml")] in
  fd ← get_dict form_params;
  resp ← (if (0 <? length fd)%nat
          then session_request (session c) method url (Some fd) hdrs
          else session_request (session c) method url None hdrs);
  content_type ← lift (header_get "Content-type" (headers resp));
  if decide (content_type ≠ "application/xml") then
    let error := new_error (status_code resp) (reason resp) in
    let error := set_message "Unexpected result from server" error in
    let error := set_details (text resp) error in
    mret (Failure error)
  else
    lift (parse_xml (content resp)).

End Invoke.

(** The three factories. *)
Definition createConnection : M loc :=
  __init__ "www.lookup.cam.ac.uk" 443 "" true None.
Definition createTestConnection : M loc :=
  __init__ "lookup-test.srv.uis.cam.ac.uk" 443 "" true None.
Definition createLocalConnection : M loc :=
  __init__ "localhost" 8443 "ibis" false None.

(** ** Sequences of credential changes *)

Inductive setter : Type :=
| SetUsername (u : option string)
| SetPassword (p : option string).

Definition run_setter (self : loc) (op : setter) : M unit :=
  match op with
  | SetUsername u => set_username self u
  | SetPassword p => set_password self p
  end.

Fixpoint run_setters (self : loc) (ops : list setter) : M unit :=
  match ops with
  | [] => mret tt
  | op :: r => run_setter self op;; run_setters self r
  end.

(** The basic-authentication pair an invocation through [self] would send:
    the [auth] of the connection's session. *)
Definition credentials_in_use (self : loc) (w : world) : option (string * string) :=
  c ← conns w !! self; s ← sessions w !! session c; auth s.

(** The requests made between two states of the world. *)
Definition new_requests (w w' : world) : list request :=
  drop (length (sent w)) (sent w').

(** * Vocabulary of the statements *)

(** Form encoding as the specification words it: a space becomes a plus
    sign, an unreserved byte stays, every other byte is percent-encoded. *)
Definition form_encode_char (c : ascii) : string :=
  if decide (c = " "%char) then "+"
  else if Urllib.always_safe c then String c ""
  else Urllib.percent_byte c.

Fixpoint form_encode (s : string) : string :=
  match s with
  | EmptyString => EmptyString
  | String c r => form_encode_char c +:+ form_encode r
  end.

(** [DD] and [YYYY]: exactly two, exactly four decimal digits. *)
Definition two_digits (s : string) : bool :=
  match s with
  | String a (String b "") => Str.is_digit a && Str.is_digit b
  | _ => false
  end.

Definition four_digits (s : string) : bool :=
  match s with
  | String a (String b (String c (String d ""))) =>
      Str.is_digit a && Str.is_digit b && Str.is_digit c && Str.is_digit d
  | _ => false
  end.

(** The shape [DD Mon YYYY] as the specification words it: two digits, a
    space, one of the twelve English abbreviations, a space, four digits. *)
Definition dd_mon_yyyy (s : string) : bool :=
  match s with
  | String d1 (String d2 (String sp1
      (String m1 (String m2 (String m3 (String sp2 yyyy)))))) =>
      two_digits (String d1 (String d2 ""))
      && bool_decide (sp1 = " "%char)
      && bool_decide (String m1 (String m2 (String m3 "")) ∈ _MONTHS)
      && bool_decide (sp2 = " "%char)
      && four_digits yyyy
  | _ => false
  end.

(** The path of the relative URL: [_build_url] drops one leading slash. *)
Definition relative_path (p : string) : string :=
  if Str.startswith "/" p then Str.tail p else p.

(** The query parameters after [_build_url] has looked for [flatten]. *)
Definition with_flatten (q : dict string) : dict string :=
  if Dict.mem "flatten" q then q else Dict.set "flatten" "true" q.

(** Invariant of the format scanner for a character [c]: a value waiting to
    be substituted does not contain [c]. *)
Definition state_clean (c : ascii) (st : fmt_state) : Prop :=
  match st with
  | FConv v => Str.mem c v = false
  | _ => True
  end.

(** The scanner state over a dictionary whose values went through [f]. *)
Definition state_map (f : string -> string) (st : fmt_state) : fmt_state :=
  match st with
  | FConv v => FConv (f v)
  | other => other
  end.

(** A small world for examples: one anonymous connection to [example.org]
    and three parameter maps. *)
Definition demo_conn : IbisClientConnection :=
  Connection "example.org" 443 "/" 0%nat (Some "anonymous") None.

Definition demo_path_params : dict string :=
  [("scheme", "crs id"); ("identifier", "d&r/17")].

Definition demo_world : world :=
  World {[ 0%nat := demo_path_params;
           1%nat := [("fetch", "email,title")];
           2%nat := [("flatten", "false")] ]}
        {[ 0%nat := Session (Some ("anonymous", "")) true ]}
        {[ 0%nat := demo_conn ]}
        [] [].

Definition demo_path : string := "api/v1/person/%(scheme)s/%(identifier)s".

(** The base path as [__init__] stores it. *)
Definition normalized_base (b : string) : string :=
  let b1 := if negb (Str.startswith "/" b) then "/" +:+ b else b in
  if negb (Str.endswith_char "/" b1) then b1 +:+ "/" else b1.

(** The effect of one credential change on the connection object. *)
Definition apply_setter (c : IbisClientConnection) (op : setter) : IbisClientConnection :=
  match op with
  | SetUsername u => set_conn_username u c
  | SetPassword p => set_conn_password p c
  end.

(** The session of a connection after [_update_authorization]. *)
Definition authorized (c : IbisClientConnection) (so : PySession) : PySession :=
  set_auth (Some (resolved_credentials c)) so.

(** The session a new connection uses. *)
Definition init_session (sess : option loc) (w : world) : loc :=
  match sess with
  | None => fresh_loc (sessions w)
  | Some s => s
  end.

(** The error [invoke_method] builds from a response that is not XML: the
    object the constructor [new_error] makes of the status code and the
    reason phrase, with [message] and [details] assigned. *)
Definition transport_error (new_error : Z -> string -> IbisError)
    (resp : response) : IbisError :=
  set_details (text resp)
    (set_message "Unexpected result from server"
       (new_error (status_code resp) (reason resp))).

(** What [invoke_method] makes of the outcome of the round trip. *)
Definition classify_response (parse_xml : string -> res IbisResult)
    (new_error : Z -> string -> IbisError)
    (r : res response) : res IbisResult :=
  resp ← r;
  content_type ← header_get "Content-type" (headers resp);
  if decide (content_type ≠ "application/xml")
  then Ret (Failure (transport_error new_error resp))
  else parse_xml (content resp).

(** One constructor the statements are evaluated with: it reads the
    [status] entry of its argument and no other, as a constructor that fills
    a new object from XML attributes does when [code] is not one of them.
    With it, [error.code] stays [None] although [invoke_method] passes the
    reason phrase under ["code"]. *)
Definition status_only_error (s : Z) (_ : string) : IbisError :=
  MkError (Some s) None None None.

(** The request [invoke_method] makes through connection [c], whose session
    is [so], once the parameters are coerced to [qps] and [fps] and the path
    is formatted to [p]. *)
Definition the_request (c : IbisClientConnection) (so : PySession)
    (method p : string) (qps fps : dict string) : request :=
  Request method
    ("https://" +:+ host c +:+ ":" +:+ pretty (port c) +:+ url_base c
       +:+ relative_path p +:+ "?" +:+ Urllib.urlencode (with_flatten qps))
    [("Accept", "application/xml")]
    (if (0 <? length fps)%nat then Some fps else None)
    (auth so) (verify so).

(** Two states of the world with the same network log, sessions and
    connections: they differ in parameter maps and warnings only. *)
Definition same_net (w w' : world) : Prop :=
  sent w' = sent w /\ sessions w' = sessions w /\ conns w' = conns w.

(** Computations that touch parameter maps only. *)
Definition dict_only {A} (m : M A) : Prop :=
  forall w, same_net w (snd (m w)).

(** What one invocation through a connection whose session is [so] does to
    the world [w]: sessions and connections stay, and at most one request is
    made, carrying the session's credentials. *)
Definition one_request (so : PySession) (method : string) (w w' : world) : Prop :=
  sessions w' = sessions w /\ conns w' = conns w /\
  (sent w' = sent w \/
   exists rq, sent w' = sent w ++ [rq] /\ rq_auth rq = auth so /\
              rq_verify rq = verify so /\ rq_method rq = method /\
              rq_headers rq = [("Accept", "application/xml")]).

(** A transport that answers every request with an HTML error page. *)
Definition html_500 : response :=
  Response [("Content-Type", "text/html")] 500 "Internal Server Error"
           "<html>boom</html>" "<html>boom</html>".

Definition failing_server (_ : list request) (_ : request) : res response :=
  Ret html_500.

Definition no_xml (_ : string) : res IbisResult := Raise (Fault "XML").

(** The world after [createConnection()] and [createTestConnection()]. *)
Definition two_connections : world :=
  snd ((createConnection ≫= fun _ => createTestConnection) empty_world).

(** ** Vocabulary of the further properties *)

(** [value is None] *)
Definition is_none (v : value) : bool :=
  match v with VNone => true | _ => false end.

(** [isinstance(value, str)] *)
Definition is_str (v : value) : bool :=
  match v with VStr _ => true | _ => false end.

(** Every sequence among the values of a parameter map holds strings only. *)
Definition sequences_ok (params : dict value) : bool :=
  forallb (fun kv => match snd kv with
                     | VList xs | VTuple xs => forallb is_str xs
                     | _ => true
                     end) params.

(** Every date among the values of a parameter map is one Python can build. *)
Definition dates_valid (params : dict value) : Prop :=
  forall k d, (k, VDate d) ∈ params -> valid_date d.

(** Every [encoded_string()] and [str()] call on a value of a parameter map
    returns a string. *)
Definition calls_return (params : dict value) : Prop :=
  forall k r, (k, VDto r) ∈ params \/ (k, VObj r) ∈ params ->
              exists s, r = Ret s.

(** [len(s.encode())]: the number of bytes of the UTF-8 encoding of a
    string, which is what a [string] of the model lists; it is [len(s)] only
    when [s] is ASCII. *)
Definition utf8_len (s : string) : nat := String.length s.

(** An exception of Python, not the mark of a conversion specifier outside
    the modelled fragment of [%] formatting. *)
Definition modelled (e : exn) : Prop := forall what, e <> Unmodelled what.

(** The string a value is sent as, if coercion gives one. *)
Definition wire_of (v : value) : option string :=
  if is_none v then None
  else match to_wire v with Ret s => Some s | Raise _ => None end.

(** The number a string of decimal digits denotes. *)
Definition digit_value (c : ascii) : Z := Z.of_N (N_of_ascii c) - 48.

Fixpoint decimal_value_go (acc : Z) (s : string) : Z :=
  match s with
  | EmptyString => acc
  | String c r => decimal_value_go (10 * acc + digit_value c) r
  end.

Definition decimal_value (s : string) : Z := decimal_value_go 0 s.

Fixpoint index_of (x : string) (l : list string) : option nat :=
  match l with
  | [] => None
  | y :: r => if decide (y = x) then Some 0%nat else S <$> index_of x r
  end.

(** The month an abbreviation of [_MONTHS] stands for (0 for other strings). *)
Definition month_number (mon : string) : Z :=
  match index_of mon _MONTHS with
  | Some i => Z.of_nat i + 1
  | None => 0
  end.

(** Reading a date back from its wire format: two characters for the day,
    three for the month, the rest for the year. *)
Definition parse_wire_date (s : string) : option date :=
  match s with
  | String d1 (String d2 (String _
      (String m1 (String m2 (String m3 (String _ y)))))) =>
      Some (Date (decimal_value y)
                 (month_number (String m1 (String m2 (String m3 ""))))
                 (decimal_value (String d1 (String d2 ""))))
  | _ => None
  end.

(** The value of a hexadecimal digit, in either case. *)
Definition hex_value (c : ascii) : option N :=
  let n := N_of_ascii c in
  if Str.is_digit c then Some (n - 48)%N
  else if ((65 <=? n) && (n <=? 70))%N then Some (n - 55)%N
  else if ((97 <=? n) && (n <=? 102))%N then Some (n - 87)%N
  else None.

(** [urllib.parse.unquote_plus], the inverse the server applies: a plus sign
    is a space, [%XX] is the byte [XX], anything else (also a malformed
    escape) stands for itself. *)
Fixpoint unquote_plus (s : string) : string :=
  match s with
  | EmptyString => EmptyString
  | String c t =>
      if decide (c = "+"%char) then String " " (unquote_plus t)
      else if decide (c = "%"%char) then
        match t with
        | String h1 (String h2 r) =>
            match hex_value h1, hex_value h2 with
            | Some a, Some b => String (ascii_of_N (16 * a + b)) (unquote_plus r)
            | _, _ => String c (unquote_plus t)
            end
        | _ => String c (unquote_plus t)
        end
      else String c (unquote_plus t)
  end.

(** One [key=value] field of a query string, decoded. *)
Definition parse_pair (s : string) : string * string :=
  match Str.split "=" s with
  | [k; v] => (unquote_plus k, unquote_plus v)
  | _ => (unquote_plus s, "")
  end.

(** A query string read back into its items, in order. *)
Definition parse_query (s : string) : list (string * string) :=
  parse_pair <$> Str.split "&" s.

(** The characters [quote_plus] can produce. *)
Definition url_char (c : ascii) : bool :=
  Urllib.always_safe c || bool_decide (c = "+"%char) || bool_decide (c = "%"%char).

(** Whether the session of a new connection verifies certificates: a session
    made by the constructor does, a supplied one keeps its setting, and
    [check_certs=False] turns verification off. *)
Definition init_verify (check_certs : bool) (sess : option loc) (w : world) : bool :=
  if check_certs then
    match sess with
    | None => true
    | Some s => match sessions w !! s with Some so => verify so | None => true end
    end
  else false.

(** The world after [__init__] has returned. *)
Definition after_init (host_ : string) (port_ : Z) (base : string)
    (check_certs : bool) (sess : option loc) (w : world) : world :=
  World (dicts w)
        (<[init_session sess w :=
             Session (Some ("anonymous", "")) (init_verify check_certs sess w)]>
           (sessions w))
        (<[fresh_loc (conns w) :=
             Connection host_ port_ (normalized_base base) (init_session sess w)
               (Some "anonymous") None]> (conns w))
        (sent w)
        (warned w ++ if check_certs then [] else [check_certs_warning]).

(** What [invoke_method] computes before it talks to the network: the three
    coercions, in the order of the source, then the path formatted over the
    encoded path parameters. *)
Definition prepared (path : string) (pp qp fp : dict value)
  : res (string * dict string * dict string) :=
  pps ← _params_to_strings pp;
  qps ← _params_to_strings qp;
  fps ← _params_to_strings fp;
  p ← py_format path (map_values Urllib.quote_plus pps);
  Ret (p, qps, fps).

(** The world after [createConnection()] and a change of user name and
    password on that connection. *)
Definition group_world : world :=
  snd ((c ← createConnection;
        set_username c (Some "mygroup");;
        set_password c (Some "secret")) empty_world).

(** A transport that answers every request with an XML document. *)
Definition xml_200 : response :=
  Response [("content-type", "application/xml")] 200 "OK" "<result/>" "<result/>".

Definition xml_server (_ : list request) (_ : request) : res response :=
  Ret xml_200.

Definition echo_xml (body : string) : res IbisResult := Ret (Success body).

(** A transport that cannot reach the server. *)
Definition dead_server (_ : list request) (_ : request) : res response :=
  Raise (Fault "ConnectionError").

(** A transport whose answer declares no content type. *)
Definition bare_server (_ : list request) (_ : request) : res response :=
  Ret (Response [("Server", "nginx")] 502 "Bad Gateway" "" "").

(** * Properties *)

(** ** Facts about strings *)

Module StrFacts.
Import Str.

Lemma append_nil_r (s : string) : s +:+ "" = s.
Proof. induction s as [|c s IH]; simpl; [done | by rewrite IH]. Qed.

Lemma append_assoc (a b c : string) : (a +:+ b) +:+ c = a +:+ (b +:+ c).
Proof. induction a as [|x a IH]; simpl; [done | by rewrite IH]. Qed.

Lemma mem_app (c : ascii) (a b : string) :
  mem c (a +:+ b) = mem c a || mem c b.
Proof.
  induction a as [|x a IH]; simpl; [done |].
  destruct (decide (x = c)); [done | exact IH].
Qed.

Lemma count_app (c : ascii) (a b : string) :
  count c (a +:+ b) = (count c a + count c b)%nat.
Proof. induction a as [|x a IH]; simpl; [done | rewrite IH; lia]. Qed.

Lemma mem_false_count (c : ascii) (s : string) :
  mem c s = false -> count c s = 0%nat.
Proof.
  induction s as [|x s IH]; simpl; [done |].
  destruct (decide (x = c)); [done | auto].
Qed.

Lemma replace_char_app (a b : ascii) (x y : string) :
  replace_char a b (x +:+ y) = replace_char a b x +:+ replace_char a b y.
Proof. induction x as [|c x IH]; simpl; [done | by rewrite IH]. Qed.

Lemma startswith_app (c : ascii) (p rest : string) :
  p <> "" -> startswith (String c "") (p +:+ rest) = startswith (String c "") p.
Proof.
  destruct p as [|x p]; [done | intros _; simpl].
  unfold startswith. simpl. destruct (ascii_dec c x); [| done].
  by destruct (p +:+ rest), p.
Qed.

Lemma tail_app (p rest : string) :
  p <> "" -> tail (p +:+ rest) = tail p +:+ rest.
Proof. by destruct p. Qed.

Lemma mem_tail (c : ascii) (s : string) : mem c s = false -> mem c (tail s) = false.
Proof.
  destruct s as [|x s]; simpl; [done |]. by destruct (decide (x = c)).
Qed.

Lemma count_join_no_sep (c : ascii) (xs : list string) :
  Forall (fun x => mem c x = false) xs ->
  count c (join (String c "") xs) = pred (length xs).
Proof.
  induction 1 as [|x xs Hx Hxs IH]; [done |].
  destruct xs as [|y xs]; [simpl; by apply mem_false_count |].
  change (join (String c "") (x :: y :: xs))
    with (x +:+ String c "" +:+ join (String c "") (y :: xs)).
  rewrite !count_app, (mem_false_count _ _ Hx), IH. simpl.
  destruct (decide (c = c)); [lia | done].
Qed.

Lemma mem_join (c : ascii) (sep : string) (xs : list string) :
  mem c sep = false -> Forall (fun x => mem c x = false) xs ->
  mem c (join sep xs) = false.
Proof.
  intros Hsep. induction 1 as [|x xs Hx Hxs IH]; [done |].
  destruct xs as [|y xs]; [done |].
  change (join sep (x :: y :: xs)) with (x +:+ sep +:+ join sep (y :: xs)).
  by rewrite !mem_app, Hx, Hsep, IH.
Qed.

(** Splitting on a separator that does not occur gives the string back. *)
Lemma split_no_sep (c : ascii) (s : string) :
  mem c s = false -> split c s = [s].
Proof.
  induction s as [|x s IH]; simpl; [done |].
  destruct (decide (x = c)); [done |]. intros H. by rewrite (IH H).
Qed.

Lemma split_app_sep (c : ascii) (x rest : string) :
  mem c x = false ->
  split c (x +:+ String c rest) = x :: split c rest.
Proof.
  induction x as [|a x IH]; simpl.
  - intros _. by destruct (decide (c = c)).
  - destruct (decide (a = c)); [done |]. intros H. by rewrite (IH H).
Qed.

Lemma split_join (c : ascii) (xs : list string) :
  xs <> [] -> Forall (fun x => mem c x = false) xs ->
  split c (join (String c "") xs) = xs.
Proof.
  intros Hne H. induction H as [|x xs Hx Hxs IH]; [done |].
  destruct xs as [|y xs].
  - simpl. by apply split_no_sep.
  - change (join (String c "") (x :: y :: xs))
      with (x +:+ String c (join (String c "") (y :: xs))).
    rewrite split_app_sep by done. by rewrite IH.
Qed.

End StrFacts.

(** ** Facts about [quote_plus] and [urlencode] *)

Module UrllibFacts.
Import Str Urllib StrFacts.

Ltac each_byte c := destruct c as [[] [] [] [] [] [] [] []].

Lemma quoter_space (c : ascii) :
  replace_char " " "+" (quoter " " c) = form_encode_char c.
Proof. each_byte c; reflexivity. Qed.

Lemma quoter_nospace (c : ascii) :
  c <> " "%char -> quoter "" c = form_encode_char c.
Proof. intros H. each_byte c; try reflexivity. by destruct H. Qed.

Lemma form_encode_char_clean (c : ascii) :
  mem " " (form_encode_char c) = false /\ mem "&" (form_encode_char c) = false.
Proof. each_byte c; split; reflexivity. Qed.

(** [quote_plus] is form encoding. *)
Lemma quote_plus_form_encode (s : string) : quote_plus s = form_encode s.
Proof.
  unfold quote_plus. destruct (mem " " s) eqn:Hs.
  - clear Hs. induction s as [|c s IH]; simpl; [done |].
    by rewrite replace_char_app, quoter_space, IH.
  - induction s as [|c s IH]; simpl in *; [done |].
    destruct (decide (c = " "%char)); [done |].
    by rewrite quoter_nospace, IH.
Qed.

Lemma quote_plus_app (a b : string) :
  quote_plus (a +:+ b) = quote_plus a +:+ quote_plus b.
Proof.
  rewrite !quote_plus_form_encode.
  induction a as [|c a IH]; simpl; [done |]. by rewrite IH, append_assoc.
Qed.

Lemma quote_plus_no_space (s : string) : mem " " (quote_plus s) = false.
Proof.
  rewrite quote_plus_form_encode. induction s as [|c s IH]; simpl; [done |].
  rewrite mem_app, IH. by destruct (form_encode_char_clean c) as [-> _].
Qed.

Lemma quote_plus_no_amp (s : string) : mem "&" (quote_plus s) = false.
Proof.
  rewrite quote_plus_form_encode. induction s as [|c s IH]; simpl; [done |].
  rewrite mem_app, IH. by destruct (form_encode_char_clean c) as [_ ->].
Qed.

Lemma encode_pair_clean (kv : string * string) :
  mem " " (encode_pair kv) = false /\ mem "&" (encode_pair kv) = false.
Proof.
  unfold encode_pair.
  by rewrite !mem_app, !quote_plus_no_space, !quote_plus_no_amp.
Qed.

Lemma urlencode_no_space (q : list (string * string)) :
  mem " " (urlencode q) = false.
Proof.
  unfold urlencode. apply mem_join; [done |].
  apply Forall_forall. intros x Hx.
  apply list_elem_of_fmap in Hx as (kv & -> & _).
  apply encode_pair_clean.
Qed.

Lemma urlencode_count_amp (q : list (string * string)) :
  count "&" (urlencode q) = pred (length q).
Proof.
  unfold urlencode. rewrite count_join_no_sep.
  - by rewrite length_fmap.
  - apply Forall_forall. intros x Hx.
    apply list_elem_of_fmap in Hx as (kv & -> & _).
    apply encode_pair_clean.
Qed.

End UrllibFacts.

(** ** Facts about dictionaries *)

Module DictFacts.

Section WithValues.
Context {V : Type}.
Implicit Types (d : dict V) (k : string) (v : V).

Lemma get_None k d : Dict.get k d = None <-> k ∉ keys d.
Proof.
  induction d as [|[k' v'] d IH]; simpl.
  - split; [intros _; apply not_elem_of_nil | done].
  - rewrite not_elem_of_cons. destruct (decide (k' = k)) as [->|Hne].
    + split; [done | by intros [? _]].
    + rewrite IH. split; [by intros ?; split | by intros [_ ?]].
Qed.

Lemma get_Some_elem k v d : Dict.get k d = Some v -> (k, v) ∈ d.
Proof.
  induction d as [|[k' v'] d IH]; simpl; [done |].
  destruct (decide (k' = k)) as [->|Hne].
  - intros [= ->]. apply list_elem_of_here.
  - intros H. apply list_elem_of_further. auto.
Qed.

Lemma mem_false k d : Dict.mem k d = false <-> Dict.get k d = None.
Proof. unfold Dict.mem. by destruct (Dict.get k d). Qed.

Lemma keys_app d1 d2 : keys (d1 ++ d2) = keys d1 ++ keys d2.
Proof. apply fmap_app. Qed.

(** Storing under an absent key appends the item. *)
Lemma set_fresh k v d : k ∉ keys d -> Dict.set k v d = d ++ [(k, v)].
Proof.
  induction d as [|[k' v'] d IH]; simpl; [done |].
  rewrite not_elem_of_cons. intros [Hne Hd].
  destruct (decide (k' = k)); [congruence |]. by rewrite IH.
Qed.

(** Storing under a present key overwrites the item where it is. *)
Lemma set_at k v v0 d (i : nat) :
  wf d -> d !! i = Some (k, v0) -> Dict.set k v d = <[i := (k, v)]> d.
Proof.
  revert i. induction d as [|[k' v'] d IH]; intros i Hwf Hi; [done |].
  unfold wf in Hwf. simpl in Hwf. apply NoDup_cons in Hwf as [Hk' Hwf].
  destruct i as [|i]; simpl in *.
  - injection Hi as -> ->. by destruct (decide (k = k)).
  - destruct (decide (k' = k)) as [->|Hne].
    + destruct Hk'. apply list_elem_of_fmap. exists (k, v0).
      split; [done |]. by eapply list_elem_of_lookup_2.
    + f_equal. by apply IH.
Qed.

Lemma keys_insert d (i : nat) k v v0 :
  d !! i = Some (k, v0) -> keys (<[i := (k, v)]> d) = keys d.
Proof.
  intros Hi. unfold keys. rewrite list_fmap_insert. simpl.
  apply list_insert_id. by rewrite list_lookup_fmap, Hi.
Qed.

Lemma keys_set k v d :
  keys (Dict.set k v d) = if decide (k ∈ keys d) then keys d else keys d ++ [k].
Proof.
  induction d as [|[k' v'] d IH]; simpl; [done |].
  destruct (decide (k' = k)) as [->|Hne]; simpl.
  - rewrite decide_True; [done | apply list_elem_of_here].
  - rewrite IH. destruct (decide (k ∈ keys d)) as [Hin|Hin].
    + rewrite decide_True; [done | by apply list_elem_of_further].
    + rewrite decide_False; [done |].
      rewrite not_elem_of_cons. by split.
Qed.

Lemma wf_set k v d : wf d -> wf (Dict.set k v d).
Proof.
  unfold wf. rewrite keys_set. destruct (decide (k ∈ keys d)); [done |].
  intros H. apply NoDup_app. split_and!; [done | | apply NoDup_singleton].
  intros x Hx Hx'. apply list_elem_of_singleton in Hx'. by subst.
Qed.

Lemma get_set_eq k v d : Dict.get k (Dict.set k v d) = Some v.
Proof.
  induction d as [|[k' v'] d IH]; simpl.
  - by destruct (decide (k = k)).
  - destruct (decide (k' = k)) as [->|Hne]; simpl.
    + by destruct (decide (k = k)).
    + by destruct (decide (k' = k)).
Qed.

Lemma keys_map_values {W} (f : V -> W) d : keys (map_values f d) = keys d.
Proof. unfold keys, map_values. by rewrite <- list_fmap_compose. Qed.

Lemma get_map_values {W} (f : V -> W) k d :
  Dict.get k (map_values f d) = f <$> Dict.get k d.
Proof.
  induction d as [|[k' v'] d IH]; simpl; [done |].
  by destruct (decide (k' = k)).
Qed.

(** Storing the items of a dictionary one by one rebuilds it. *)
Lemma foldl_set_app d acc :
  wf (acc ++ d) ->
  foldl (fun a kv => Dict.set (fst kv) (snd kv) a) acc d = acc ++ d.
Proof.
  revert acc. induction d as [|[k v] d IH]; intros acc Hwf; simpl.
  - by rewrite app_nil_r.
  - unfold wf in Hwf. rewrite keys_app in Hwf. simpl in Hwf.
    assert (k ∉ keys acc) as Hk.
    { apply NoDup_app in Hwf as (_ & Hdis & _). intros Hin.
      apply (Hdis k Hin). apply list_elem_of_here. }
    rewrite set_fresh by done. rewrite IH.
    + by rewrite <- app_assoc.
    + unfold wf. rewrite <- app_assoc, keys_app. done.
Qed.

End WithValues.

End DictFacts.

(** ** Parameter coercion *)

Module CoercionFacts.
Import DictFacts.

Lemma params_loop_wf items acc out :
  wf acc -> params_loop items acc = Ret out -> wf out.
Proof.
  revert acc. induction items as [|[k v] items IH]; intros acc Hacc; simpl.
  - by intros [= <-].
  - destruct v; try (by apply IH);
      (destruct (to_wire _) as [wire|err] eqn:Hwire; simpl; [| done];
       apply IH; by apply wf_set).
Qed.

Lemma params_to_strings_wf params out :
  _params_to_strings params = Ret out -> wf out.
Proof. apply params_loop_wf. apply NoDup_nil_2. Qed.

(** On a map of strings the loop stores every item unchanged. *)
Lemma params_loop_strings (d : dict string) acc :
  params_loop (map_values VStr d) acc
  = Ret (foldl (fun a kv => Dict.set (fst kv) (snd kv) a) acc d).
Proof.
  revert acc. induction d as [|[k v] d IH]; intros acc; simpl; [done |].
  apply IH.
Qed.

Lemma params_to_strings_strings (d : dict string) :
  wf d -> _params_to_strings (map_values VStr d) = Ret d.
Proof.
  intros Hwf. unfold _params_to_strings.
  rewrite params_loop_strings, foldl_set_app; done.
Qed.

Lemma str_items_strings (xs : list string) :
  str_items (VStr <$> xs) = Ret xs.
Proof.
  induction xs as [|x xs IH]; [done |].
  rewrite fmap_cons. cbn [str_items]. by rewrite IH.
Qed.

End CoercionFacts.

(** C9: parameter coercion is idempotent.  Whenever [_params_to_strings]
    returns a map, every value of that map is a string, and coercing that
    map again returns the same map. *)
Theorem params_to_strings_idempotent (params : dict value) (out : dict string) :
  _params_to_strings params = Ret out ->
  _params_to_strings (map_values VStr out) = Ret out.
Proof.
  intros H. apply CoercionFacts.params_to_strings_strings.
  by eapply CoercionFacts.params_to_strings_wf.
Qed.

Lemma params_to_strings_idempotent_witness :
  let params := [("fetch", VList [VStr "email"; VStr "title"]);
                 ("flatten", VBool false); ("skip", VNone);
                 ("since", VDate (Date 2024 1 2)); ("limit", VInt 10);
                 ("fetch", VStr "jdName")] in
  let out := [("fetch", "jdName"); ("flatten", "false");
              ("since", "02 Jan 2024"); ("limit", "10")] in
  _params_to_strings params = Ret out /\
  _params_to_strings (map_values VStr out) = Ret out.
Proof.
  split; [reflexivity |].
  apply (params_to_strings_idempotent
           [("fetch", VList [VStr "email"; VStr "title"]);
            ("flatten", VBool false); ("skip", VNone);
            ("since", VDate (Date 2024 1 2)); ("limit", VInt 10);
            ("fetch", VStr "jdName")]).
  reflexivity.
Defined.

(** ** Dates on the wire *)

Module DateFacts.

(** A property checked on every integer of a range holds on the range. *)
Lemma range_check (P : Z -> bool) (lo n : Z) :
  forallb (fun i => P (lo + Z.of_nat i)) (seq 0 (Z.to_nat n)) = true ->
  forall z, lo <= z < lo + n -> P z = true.
Proof.
  intros Hall z Hz. rewrite forallb_forall in Hall.
  replace z with (lo + Z.of_nat (Z.to_nat (z - lo))) by lia.
  apply Hall, in_seq. lia.
Qed.

Lemma day_two_digits (z : Z) : 1 <= z <= 31 -> two_digits (fmt_02d z) = true.
Proof.
  intros Hz. apply (range_check (fun z => two_digits (fmt_02d z)) 1 31);
    [vm_compute; reflexivity | lia].
Qed.

Lemma year_four_digits (z : Z) :
  1000 <= z <= 9999 -> four_digits (fmt_d z) = true.
Proof.
  intros Hz. apply (range_check (fun z => four_digits (fmt_d z)) 1000 9000);
    [vm_compute; reflexivity | lia].
Qed.

Lemma days_in_month_le (y m : Z) : days_in_month y m <= 31.
Proof.
  unfold days_in_month.
  repeat (match goal with |- context [match ?x with _ => _ end] => destruct x end);
    lia.
Qed.

Lemma month_name (m : Z) :
  1 <= m <= 12 ->
  exists mon, py_index _MONTHS (m - 1) = Ret mon /\ mon ∈ _MONTHS /\
              _MONTHS !! Z.to_nat (m - 1) = Some mon.
Proof.
  intros Hm.
  assert (m = 1 \/ m = 2 \/ m = 3 \/ m = 4 \/ m = 5 \/ m = 6 \/ m = 7 \/
          m = 8 \/ m = 9 \/ m = 10 \/ m = 11 \/ m = 12) as Hcases by lia.
  repeat destruct Hcases as [-> | Hcases]; try subst m;
    (eexists; split; [reflexivity | split; [| reflexivity]]);
    unfold _MONTHS;
    repeat first [apply list_elem_of_here | apply list_elem_of_further].
Qed.

Lemma shape (dd mon yyyy : string) :
  two_digits dd = true -> mon ∈ _MONTHS -> four_digits yyyy = true ->
  dd_mon_yyyy (dd +:+ " " +:+ mon +:+ " " +:+ yyyy) = true.
Proof.
  intros Hdd Hmon Hy.
  destruct dd as [|d1 [|d2 [|? ?]]]; try done.
  unfold _MONTHS in Hmon.
  repeat (apply elem_of_cons in Hmon as [-> | Hmon]);
    [.. | by apply elem_of_nil in Hmon];
    simpl; rewrite Hy; simpl in Hdd; rewrite Hdd; reflexivity.
Qed.

End DateFacts.

(** C7, as stated, fails on the second of January of the year 999: the
    coerced value is ["02 Jan 999"], whose year has three digits, so the
    string does not have the shape [DD Mon YYYY]. *)
Lemma date_format_year_999 :
  valid_date (Date 999 1 2) /\
  to_wire (VDate (Date 999 1 2)) = Ret "02 Jan 999" /\
  _params_to_strings [("since", VDate (Date 999 1 2))] = Ret [("since", "02 Jan 999")] /\
  dd_mon_yyyy "02 Jan 999" = false.
Proof. repeat split; vm_compute; congruence. Qed.

(** C7, amended: for every calendar date, parameter coercion produces the
    day zero-padded to two digits, a space, the three-letter English month
    abbreviation of the table, a space, and the year in plain decimal with
    no padding; this is exactly the shape [DD Mon YYYY] whenever the year
    has four digits (1000 to 9999).  Nothing but the date enters the
    result. *)
Theorem date_wire_format (d : date) (key : string) :
  valid_date d ->
  exists mon : string,
    _MONTHS !! Z.to_nat (month d - 1) = Some mon /\
    String.length mon = 3%nat /\
    two_digits (fmt_02d (day d)) = true /\
    let s := fmt_02d (day d) +:+ " " +:+ mon +:+ " " +:+ pretty (year d) in
    to_wire (VDate d) = Ret s /\
    _params_to_strings [(key, VDate d)] = Ret [(key, s)] /\
    (1000 <= year d -> dd_mon_yyyy s = true).
Proof.
  intros (Hy & Hm & Hd).
  destruct (DateFacts.month_name (month d) Hm) as (mon & Hidx & Hin & Hnth).
  pose proof (DateFacts.days_in_month_le (year d) (month d)) as Hle.
  assert (two_digits (fmt_02d (day d)) = true) as Hdd
    by (apply DateFacts.day_two_digits; lia).
  exists mon. split; [exact Hnth |]. split.
  { unfold _MONTHS in Hin.
    repeat (apply elem_of_cons in Hin as [-> | Hin]); try reflexivity.
    by apply elem_of_nil in Hin. }
  split; [exact Hdd |]. cbv zeta. split_and!.
  - simpl. by rewrite Hidx.
  - unfold _params_to_strings. simpl. by rewrite Hidx.
  - intros Hbig. apply DateFacts.shape; try done.
    apply DateFacts.year_four_digits. lia.
Qed.

Lemma date_wire_format_witness :
  valid_date (Date 2024 1 2) /\
  to_wire (VDate (Date 2024 1 2)) = Ret "02 Jan 2024" /\
  dd_mon_yyyy "02 Jan 2024" = true.
Proof.
  assert (valid_date (Date 2024 1 2)) as Hv by (vm_compute; intuition congruence).
  split; [exact Hv |].
  destruct (date_wire_format (Date 2024 1 2) "since" Hv)
    as (mon & Hmon & _ & _ & Hwire & _ & Hshape).
  injection Hmon as <-. split; [exact Hwire |].
  apply Hshape. simpl. lia.
Defined.

(** ** Sequences on the wire *)

(** C8, as stated, fails on the empty sequence: it is coerced to the empty
    string, and splitting the empty string on commas gives one empty field,
    not the empty sequence. *)
Lemma comma_join_empty_not_recovered :
  Forall (fun x => Str.mem "," x = false) ([] : list string) /\
  to_wire (VList (VStr <$> [])) = Ret (Str.join "," []) /\
  Str.split "," (Str.join "," []) <> [].
Proof. split_and!; [constructor | reflexivity | discriminate]. Qed.

(** No way of splitting can do better: the empty sequence and the sequence
    of one empty string are coerced to the same string. *)
Lemma comma_join_not_injective :
  to_wire (VList []) = to_wire (VList [VStr ""]).
Proof. reflexivity. Qed.

(** C8, amended: for every non-empty sequence (list or tuple) of strings,
    parameter coercion yields the elements joined with single commas, and
    splitting that string on commas recovers the sequence whenever no
    element contains a comma. *)
Theorem comma_join_split (xs : list string) :
  xs <> [] ->
  Forall (fun x => Str.mem "," x = false) xs ->
  to_wire (VList (VStr <$> xs)) = Ret (Str.join "," xs) /\
  to_wire (VTuple (VStr <$> xs)) = Ret (Str.join "," xs) /\
  Str.split "," (Str.join "," xs) = xs.
Proof.
  intros Hne Hxs. unfold to_wire, comma_join.
  rewrite CoercionFacts.str_items_strings. split_and!; try reflexivity.
  by apply StrFacts.split_join.
Qed.

Lemma comma_join_split_witness :
  to_wire (VList (VStr <$> ["email"; "title"])) = Ret "email,title" /\
  to_wire (VTuple (VStr <$> ["email"; "title"])) = Ret "email,title" /\
  Str.split "," "email,title" = ["email"; "title"].
Proof.
  apply (comma_join_split ["email"; "title"]); [discriminate |].
  repeat constructor.
Defined.

(** ** Running computations on the store *)

Module StoreFacts.
Import DictFacts.

Lemma bind_run {A B} (m : M A) (f : A -> M B) (w : world) :
  (m ≫= f) w = match m w with
               | (Ret a, w') => f a w'
               | (Raise e, w') => (Raise e, w')
               end.
Proof. reflexivity. Qed.

Lemma bind_ret {A B} (m : M A) (f : A -> M B) (w w' : world) (a : A) :
  m w = (Ret a, w') -> (m ≫= f) w = f a w'.
Proof. intros H. by rewrite bind_run, H. Qed.

Lemma bind_raise {A B} (m : M A) (f : A -> M B) (w w' : world) (e : exn) :
  m w = (Raise e, w') -> (m ≫= f) w = (Raise e, w').
Proof. intros H. by rewrite bind_run, H. Qed.

Lemma get_dict_run l d w : dicts w !! l = Some d -> get_dict l w = (Ret d, w).
Proof. intros H. unfold get_dict. by rewrite H. Qed.

Lemma get_session_run l s w :
  sessions w !! l = Some s -> get_session l w = (Ret s, w).
Proof. intros H. unfold get_session. by rewrite H. Qed.

Lemma get_conn_run l c w : conns w !! l = Some c -> get_conn l w = (Ret c, w).
Proof. intros H. unfold get_conn. by rewrite H. Qed.

Lemma with_dicts_id l d w : dicts w !! l = Some d -> with_dicts <[l := d]> w = w.
Proof. destruct w. simpl. intros H. unfold with_dicts. simpl. by rewrite insert_id. Qed.

Lemma with_sessions_id l s w :
  sessions w !! l = Some s -> with_sessions <[l := s]> w = w.
Proof. destruct w. simpl. intros H. unfold with_sessions. simpl. by rewrite insert_id. Qed.

Lemma fresh_loc_None {V} (m : gmap loc V) : m !! fresh_loc m = None.
Proof. apply not_elem_of_dom. unfold fresh_loc. apply is_fresh. Qed.

Lemma fresh_loc_ne {V} (m : gmap loc V) (l : loc) :
  is_Some (m !! l) -> l <> fresh_loc m.
Proof. intros [v Hv] ->. by rewrite fresh_loc_None in Hv. Qed.

(** The loop of [_build_url] replaces every value by its encoding. *)
Lemma quote_items_run (l : loc) (d : dict string) :
  wf d ->
  forall (n i : nat) (w : world),
    (n + i)%nat = length d ->
    dicts w !! l = Some (map_values Urllib.quote_plus (take i d) ++ drop i d) ->
    quote_items n i l w
    = (Ret tt, with_dicts <[l := map_values Urllib.quote_plus d]> w).
Proof.
  intros Hwf. induction n as [|n IH]; intros i w Hlen Hcur.
  - simpl in Hlen. subst i. rewrite firstn_all, drop_all, app_nil_r in Hcur.
    simpl. by rewrite with_dicts_id.
  - assert (i < length d)%nat as Hi by lia.
    destruct (lookup_lt_is_Some_2 d i Hi) as [[k v] Hkv].
    set (cur := map_values Urllib.quote_plus (take i d) ++ drop i d) in *.
    assert (length (map_values Urllib.quote_plus (take i d)) = i) as Hlen_i.
    { unfold map_values. rewrite length_fmap, length_take. lia. }
    assert (cur !! i = Some (k, v)) as Hcur_i.
    { unfold cur. rewrite lookup_app_r by lia.
      rewrite Hlen_i, Nat.sub_diag, lookup_drop, Nat.add_0_r. done. }
    assert (wf cur) as Hwf_cur.
    { unfold wf, cur. rewrite keys_app, keys_map_values, <- keys_app.
      by rewrite take_drop. }
    cbn [quote_items].
    rewrite (bind_ret _ _ _ _ _ (get_dict_run _ _ _ Hcur)), Hcur_i.
    rewrite bind_run. cbn [put_dict].
    rewrite (set_at _ _ _ _ _ Hwf_cur Hcur_i).
    rewrite IH; [| lia |].
    + f_equal. destruct w. unfold with_dicts. simpl. f_equal.
      apply insert_insert_eq.
    + cbn [dicts with_dicts]. rewrite lookup_insert_eq. f_equal.
      unfold cur. rewrite insert_app_r_alt by lia.
      rewrite Hlen_i, Nat.sub_diag.
      rewrite (drop_S _ _ _ Hkv), (take_S_r _ _ _ Hkv). simpl.
      unfold map_values. rewrite fmap_app, <- app_assoc. done.
Qed.

End StoreFacts.

(** ** Facts about formatting *)

Module FormatFacts.
Import DictFacts StrFacts.

Lemma fmt_go_clean (c : ascii) (d : dict string) :
  c <> "%"%char ->
  (forall k v, Dict.get k d = Some v -> Str.mem c v = false) ->
  forall fmt st out,
    Str.mem c fmt = false -> state_clean c st ->
    fmt_go st fmt d = Ret out -> Str.mem c out = false.
Proof.
  intros Hc Hd. induction fmt as [|x fmt IH]; intros st out Hfmt Hst Hrun.
  - destruct st; simpl in Hrun; try done. by injection Hrun as <-.
  - simpl in Hfmt. destruct (decide (x = c)) as [|Hx]; [done |].
    assert (forall st' o, state_clean c st' -> fmt_go st' fmt d = Ret o ->
                          Str.mem c o = false) as Hrec
      by (intros st' o; by apply IH).
    assert (forall o, fmt_go FLit fmt d = Ret o -> Str.mem c o = false) as Hlit
      by (intros o; by apply Hrec).
    clear IH.
    destruct st as [| |depth acc|v]; simpl in Hrun.
    + destruct (decide (x = "%"%char)); [by apply (Hrec FPct) |].
      destruct (fmt_go FLit fmt d) as [o|] eqn:Ho; simpl in Hrun; [| done].
      injection Hrun as <-. simpl. rewrite decide_False by done. by apply Hlit.
    + destruct (decide (x = "%"%char)).
      * destruct (fmt_go FLit fmt d) as [o|] eqn:Ho; simpl in Hrun; [| done].
        injection Hrun as <-. simpl. rewrite decide_False by done.
        by apply Hlit.
      * destruct (decide (x = "("%char)); [by apply (Hrec (FKey 1 "")) | done].
    + destruct (decide (x = ")"%char)).
      * destruct depth as [|[|depth]];
          try (by apply (Hrec (FKey (S depth) (acc +:+ String x ""))));
          (destruct (Dict.get acc d) as [v|] eqn:Hv; [| done];
           apply (Hrec (FConv v)); [simpl; by eapply Hd | done]).
      * destruct (decide (x = "("%char)).
        -- by apply (Hrec (FKey (S depth) (acc +:+ String x ""))).
        -- by apply (Hrec (FKey depth (acc +:+ String x ""))).
    + simpl in Hst. destruct (decide (x = "s"%char)).
      * destruct (fmt_go FLit fmt d) as [o|] eqn:Ho; simpl in Hrun; [| done].
        injection Hrun as <-. rewrite mem_app, Hst. by apply Hlit.
      * by destruct (decide (x = "%"%char)).
Qed.

Lemma py_format_clean (c : ascii) (fmt : string) (d : dict string) (out : string) :
  c <> "%"%char ->
  (forall k v, Dict.get k d = Some v -> Str.mem c v = false) ->
  Str.mem c fmt = false ->
  py_format fmt d = Ret out -> Str.mem c out = false.
Proof. intros Hc Hd Hfmt. by apply fmt_go_clean. Qed.

Lemma fmt_go_map_values (f : string -> string) (d : dict string) :
  forall fmt st out,
    fmt_go st fmt d = Ret out ->
    exists out', fmt_go (state_map f st) fmt (map_values f d) = Ret out'.
Proof.
  pose proof (fun k => get_map_values f k d) as Hget.
  remember (map_values f d) as d' eqn:Hd'. clear Hd'.
  induction fmt as [|x fmt IH]; intros st out Hrun.
  - destruct st; simpl in *; try done. by eexists.
  - destruct st as [| |depth acc|v]; simpl in *.
    + destruct (decide (x = "%"%char)); [by apply (IH FPct out) |].
      destruct (fmt_go FLit fmt d) as [o|] eqn:Ho; simpl in Hrun; [| done].
      destruct (IH FLit o Ho) as [o' Ho']. simpl in Ho'. rewrite Ho'.
      by eexists.
    + destruct (decide (x = "%"%char)).
      * destruct (fmt_go FLit fmt d) as [o|] eqn:Ho; simpl in Hrun; [| done].
        destruct (IH FLit o Ho) as [o' Ho']. simpl in Ho'. rewrite Ho'.
        by eexists.
      * destruct (decide (x = "("%char)); [| done].
        by apply (IH (FKey 1 "") out).
    + destruct (decide (x = ")"%char)).
      * destruct depth as [|[|depth]];
          try (by apply (IH (FKey _ _) out));
          (rewrite Hget;
           destruct (Dict.get acc d) as [v|] eqn:Hv; [| done]; simpl;
           by apply (IH (FConv v) out)).
      * destruct (decide (x = "("%char)); by apply (IH (FKey _ _) out).
    + destruct (decide (x = "s"%char)).
      * destruct (fmt_go FLit fmt d) as [o|] eqn:Ho; simpl in Hrun; [| done].
        destruct (IH FLit o Ho) as [o' Ho']. simpl in Ho'. rewrite Ho'.
        by eexists.
      * by destruct (decide (x = "%"%char)).
Qed.

Lemma py_format_map_values (f : string -> string) fmt (d : dict string) out :
  py_format fmt d = Ret out ->
  exists out', py_format fmt (map_values f d) = Ret out'.
Proof. apply (fmt_go_map_values f d fmt FLit). Qed.

End FormatFacts.

(** ** The URL builder *)

Module BuildUrlFacts.
Import DictFacts StrFacts StoreFacts.

Lemma relative_url (base p r : string) :
  (if Str.startswith "/" (p +:+ "?" +:+ r)
   then base +:+ Str.tail (p +:+ "?" +:+ r)
   else base +:+ p +:+ "?" +:+ r)
  = base +:+ relative_path p +:+ "?" +:+ r.
Proof.
  unfold relative_path. destruct p as [|x p]; [done |].
  rewrite startswith_app by done. rewrite tail_app by done.
  by destruct (Str.startswith "/" (String x p)).
Qed.

Lemma build_url_run self path pl ql w c (d q : dict string) p :
  conns w !! self = Some c -> dicts w !! pl = Some d -> dicts w !! ql = Some q ->
  pl <> ql -> wf d ->
  py_format path (map_values Urllib.quote_plus d) = Ret p ->
  _build_url self path pl ql w
  = (Ret (url_base c +:+ relative_path p +:+ "?" +:+ Urllib.urlencode (with_flatten q)),
     with_dicts (fun m => <[ql := with_flatten q]> (<[pl := map_values Urllib.quote_plus d]> m)) w).
Proof.
  intros Hc Hd Hq Hne Hwf Hp. unfold _build_url.
  rewrite (bind_ret _ _ _ _ _ (get_dict_run _ _ _ Hd)).
  rewrite (bind_ret _ _ _ _ _ (quote_items_run pl d Hwf (length d) 0 w (Nat.add_0_r _) Hd)).
  set (d' := map_values Urllib.quote_plus d).
  set (w1 := with_dicts <[pl := d']> w).
  assert (dicts w1 !! pl = Some d') as Hd1 by (apply lookup_insert_eq).
  assert (dicts w1 !! ql = Some q) as Hq1
    by (unfold w1; cbn [dicts with_dicts]; by rewrite lookup_insert_ne).
  rewrite (bind_ret _ _ _ _ _ (get_dict_run _ _ _ Hd1)).
  rewrite (bind_ret (lift (py_format path d')) _ w1 w1 p) by (unfold lift; f_equal; exact Hp).
  rewrite (bind_ret _ _ _ _ _ (get_dict_run _ _ _ Hq1)).
  unfold with_flatten. destruct (Dict.mem "flatten" q) eqn:Hfl; cbn [negb].
  - rewrite (bind_ret (mret tt) _ w1 w1 tt) by done.
    rewrite (bind_ret _ _ _ _ _ (get_dict_run _ _ _ Hq1)).
    rewrite (bind_ret _ _ _ _ _ (get_conn_run self c w1 Hc)).
    rewrite <- relative_url.
    assert (w1 = with_dicts (fun m => <[ql := q]> (<[pl := d']> m)) w) as <-.
    { unfold w1. destruct w. unfold with_dicts. simpl in *. f_equal.
      symmetry. apply insert_id. by rewrite lookup_insert_ne. }
    by destruct (Str.startswith _ _).
  - rewrite bind_run. cbn [put_dict].
    set (q' := Dict.set "flatten" "true" q).
    set (w2 := with_dicts <[ql := q']> w1).
    assert (dicts w2 !! ql = Some q') as Hq2 by (apply lookup_insert_eq).
    rewrite (bind_ret _ _ _ _ _ (get_dict_run _ _ _ Hq2)).
    rewrite (bind_ret _ _ _ _ _ (get_conn_run self c w2 Hc)).
    rewrite <- relative_url.
    assert (w2 = with_dicts (fun m => <[ql := q']> (<[pl := d']> m)) w) as <-.
    { unfold w2, w1. by destruct w. }
    by destruct (Str.startswith _ _).
Qed.

End BuildUrlFacts.

Section BuildUrl.
Import Urllib DictFacts StrFacts UrllibFacts FormatFacts BuildUrlFacts.

(** C3: whenever the URL builder returns, the URL ends in a question mark
    and the query string, which is the ampersand-joined list of the encoded
    items of the query parameters.  If the caller's query parameters have no
    [flatten] key, the item [flatten=true] is added (last) and is part of the
    query string; if they have one, the parameters are left exactly as they
    were, nothing is added, and the query string carries the caller's value
    (in its encoded form).  The two parameter maps are distinct objects, as
    they are in every call [invoke_method] makes. *)
Theorem build_url_flatten self path pl ql w c (d q : dict string) p :
  conns w !! self = Some c -> dicts w !! pl = Some d -> dicts w !! ql = Some q ->
  pl <> ql -> wf d ->
  py_format path (map_values quote_plus d) = Ret p ->
  exists url w' q',
    _build_url self path pl ql w = (Ret url, w') /\
    dicts w' !! ql = Some q' /\
    url = url_base c +:+ relative_path p +:+ "?" +:+ Str.join "&" (encode_pair <$> q') /\
    match Dict.get "flatten" q with
    | None => q' = q ++ [("flatten", "true")] /\ "flatten=true" ∈ encode_pair <$> q'
    | Some v => q' = q /\ "flatten=" +:+ quote_plus v ∈ encode_pair <$> q'
    end.
Proof.
  intros Hc Hd Hq Hne Hwf Hp.
  eexists _, _, (with_flatten q). split; [by eapply build_url_run |].
  split; [cbn [dicts with_dicts]; apply lookup_insert_eq |].
  split; [reflexivity |].
  unfold with_flatten, Dict.mem.
  destruct (Dict.get "flatten" q) as [v|] eqn:Hv.
  - split; [done |]. apply list_elem_of_fmap. exists ("flatten", v).
    split; [reflexivity | by apply get_Some_elem].
  - apply get_None in Hv. rewrite set_fresh by done. split; [done |].
    rewrite fmap_app. apply elem_of_app. right. apply list_elem_of_here.
Qed.

Lemma demo_wf : wf demo_path_params.
Proof. unfold wf. refine (bool_decide_unpack _ _). vm_compute. exact I. Qed.

Lemma build_url_flatten_witness :
  exists url w',
    _build_url 0%nat demo_path 0%nat 2%nat demo_world = (Ret url, w') /\
    dicts w' !! 2%nat = Some [("flatten", "false")] /\
    url = "/api/v1/person/crs+id/d%26r%2F17?flatten=false".
Proof.
  destruct (build_url_flatten 0%nat demo_path 0%nat 2%nat demo_world
              demo_conn demo_path_params
              [("flatten", "false")]
              "api/v1/person/crs+id/d%26r%2F17")
    as (url & w' & q' & Hrun & Hq' & Hurl & Hfl);
    [reflexivity | reflexivity | reflexivity | discriminate | exact demo_wf
    | reflexivity |].
  simpl in Hfl. destruct Hfl as [-> _].
  exists url, w'. split; [exact Hrun |]. split; [exact Hq' |]. exact Hurl.
Defined.

(** C6: every path parameter value is form-encoded (a space becomes a plus
    sign, every byte outside the unreserved set is percent-encoded) before it
    is substituted into the named placeholders of the template: the URL is
    built from the template formatted over the encoded values.  No encoded
    value contains a space or an ampersand, so when the template and the base
    path contain none, the relative URL contains no space at all, and no
    ampersand except the separators between the query items. *)
Theorem build_url_encodes_path_params self path pl ql w c (d q : dict string) p :
  conns w !! self = Some c -> dicts w !! pl = Some d -> dicts w !! ql = Some q ->
  pl <> ql -> wf d ->
  py_format path (map_values form_encode d) = Ret p ->
  exists url w',
    _build_url self path pl ql w = (Ret url, w') /\
    url = url_base c +:+ relative_path p +:+ "?" +:+ urlencode (with_flatten q) /\
    dicts w' !! pl = Some (map_values form_encode d) /\
    (forall k v, Dict.get k d = Some v ->
       Str.mem " " (form_encode v) = false /\ Str.mem "&" (form_encode v) = false) /\
    (Str.mem " " path = false -> Str.mem " " (url_base c) = false ->
     Str.mem " " url = false) /\
    (Str.mem "&" path = false -> Str.mem "&" (url_base c) = false ->
     Str.count "&" url = pred (length (with_flatten q))).
Proof.
  intros Hc Hd Hq Hne Hwf Hp.
  assert (map_values form_encode d = map_values quote_plus d) as Henc.
  { apply list_fmap_ext. intros i [k v] _. simpl.
    by rewrite quote_plus_form_encode. }
  rewrite Henc in *.
  eexists _, _. split; [by eapply build_url_run |].
  split; [reflexivity |].
  split.
  { cbn [dicts with_dicts]. rewrite lookup_insert_ne by done.
    apply lookup_insert_eq. }
  split.
  { intros k v _. rewrite <- quote_plus_form_encode.
    split; [apply quote_plus_no_space | apply quote_plus_no_amp]. }
  assert (forall x : ascii, x <> "%"%char ->
            (forall v, Str.mem x (quote_plus v) = false) ->
            Str.mem x path = false -> Str.mem x (relative_path p) = false)
    as Hclean.
  { intros x Hx Hqp Hpath. unfold relative_path.
    assert (Str.mem x p = false) as Hmem.
    { eapply py_format_clean; [exact Hx | | exact Hpath | exact Hp].
      intros k v Hv. rewrite get_map_values in Hv.
      destruct (Dict.get k d) as [v0|]; [| done].
      injection Hv as <-. apply Hqp. }
    destruct (Str.startswith "/" p); [by apply mem_tail | done]. }
  split.
  - intros Hpath Hbase. rewrite !mem_app, Hbase, urlencode_no_space.
    rewrite (Hclean " "%char); [done | done | apply quote_plus_no_space | done].
  - intros Hpath Hbase. rewrite !count_app, urlencode_count_amp.
    rewrite (mem_false_count _ _ Hbase).
    rewrite (mem_false_count "&" (relative_path p)).
    + reflexivity.
    + apply Hclean; [done | apply quote_plus_no_amp | done].
Qed.

Lemma build_url_encodes_path_params_witness :
  exists w',
    _build_url 0%nat demo_path 0%nat 1%nat demo_world
    = (Ret "/api/v1/person/crs+id/d%26r%2F17?fetch=email%2Ctitle&flatten=true", w') /\
    dicts w' !! 0%nat = Some [("scheme", "crs+id"); ("identifier", "d%26r%2F17")].
Proof.
  destruct (build_url_encodes_path_params 0%nat demo_path 0%nat 1%nat demo_world
              demo_conn demo_path_params
              [("fetch", "email,title")]
              "api/v1/person/crs+id/d%26r%2F17")
    as (url & w' & Hrun & Hurl & Hpl & _);
    [reflexivity | reflexivity | reflexivity | discriminate | exact demo_wf
    | reflexivity |].
  exists w'. split; [| exact Hpl].
  rewrite Hrun, Hurl. reflexivity.
Defined.

(** C10: [_build_url] overwrites every value of the caller's path parameter
    map with its encoded form and adds [flatten] to the caller's query
    parameter map when it is absent.  A second call with the same map objects
    therefore substitutes the values encoded twice (and leaves them encoded
    twice in the map); for instance ["a b"] goes in as ["a+b"] the first time
    and as ["a%2Bb"] the second time. *)
Theorem build_url_mutates_path_params self path pl ql w c (d q : dict string) p :
  conns w !! self = Some c -> dicts w !! pl = Some d -> dicts w !! ql = Some q ->
  pl <> ql -> wf d ->
  py_format path (map_values quote_plus d) = Ret p ->
  exists url1 w1 p2 w2,
    _build_url self path pl ql w = (Ret url1, w1) /\
    dicts w1 !! pl = Some (map_values quote_plus d) /\
    dicts w1 !! ql = Some (if Dict.mem "flatten" q then q
                           else q ++ [("flatten", "true")]) /\
    py_format path (map_values quote_plus (map_values quote_plus d)) = Ret p2 /\
    _build_url self path pl ql w1
    = (Ret (url_base c +:+ relative_path p2 +:+ "?" +:+ urlencode (with_flatten q)), w2) /\
    dicts w2 !! pl = Some (map_values quote_plus (map_values quote_plus d)) /\
    quote_plus (quote_plus "a b") = "a%2Bb" /\ quote_plus "a b" = "a+b".
Proof.
  intros Hc Hd Hq Hne Hwf Hp.
  destruct (py_format_map_values quote_plus _ _ _ Hp) as [p2 Hp2].
  set (d1 := map_values quote_plus d) in *.
  set (w1 := with_dicts (fun m => <[ql := with_flatten q]> (<[pl := d1]> m)) w).
  assert (dicts w1 !! pl = Some d1) as Hd1.
  { unfold w1. cbn [dicts with_dicts]. rewrite lookup_insert_ne by done.
    apply lookup_insert_eq. }
  assert (dicts w1 !! ql = Some (with_flatten q)) as Hq1
    by (unfold w1; cbn [dicts with_dicts]; apply lookup_insert_eq).
  assert (with_flatten (with_flatten q) = with_flatten q) as Hidem.
  { unfold with_flatten at 1. destruct (Dict.mem "flatten" (with_flatten q)) eqn:Hm;
      [done |]. unfold with_flatten, Dict.mem in Hm.
    destruct (Dict.get "flatten" q) eqn:Hg; [by rewrite Hg in Hm |].
    by rewrite get_set_eq in Hm. }
  assert (wf d1) as Hwf1 by (unfold wf, d1; by rewrite keys_map_values).
  exists (url_base c +:+ relative_path p +:+ "?" +:+ urlencode (with_flatten q)),
    w1, p2. eexists.
  split; [by apply build_url_run |].
  split; [exact Hd1 |].
  split.
  { rewrite Hq1. f_equal. unfold with_flatten, Dict.mem.
    destruct (Dict.get "flatten" q) eqn:Hg; [done |].
    apply set_fresh. by apply get_None. }
  split; [exact Hp2 |].
  split.
  { rewrite (build_url_run self path pl ql w1 c d1 (with_flatten q) p2);
      try done. by rewrite Hidem. }
  split; [| split; reflexivity].
  unfold w1. cbn [dicts with_dicts]. rewrite lookup_insert_ne by done.
  apply lookup_insert_eq.
Qed.

Lemma build_url_mutates_path_params_witness :
  exists w1 w2,
    _build_url 0%nat demo_path 0%nat 1%nat demo_world
    = (Ret "/api/v1/person/crs+id/d%26r%2F17?fetch=email%2Ctitle&flatten=true", w1) /\
    _build_url 0%nat demo_path 0%nat 1%nat w1
    = (Ret "/api/v1/person/crs%2Bid/d%2526r%252F17?fetch=email%2Ctitle&flatten=true", w2) /\
    dicts w2 !! 0%nat = Some [("scheme", "crs%2Bid"); ("identifier", "d%2526r%252F17")].
Proof.
  destruct (build_url_mutates_path_params 0%nat demo_path 0%nat 1%nat demo_world
              demo_conn demo_path_params
              [("fetch", "email,title")]
              "api/v1/person/crs+id/d%26r%2F17")
    as (url1 & w1 & p2 & w2 & Hrun1 & _ & _ & Hp2 & Hrun2 & Hpl2 & _);
    [reflexivity | reflexivity | reflexivity | discriminate | exact demo_wf
    | reflexivity |].
  exists w1, w2. split; [| split; [| exact Hpl2]].
  - rewrite Hrun1. f_equal.
    assert (fst (_build_url 0%nat demo_path 0%nat 1%nat demo_world)
            = Ret "/api/v1/person/crs+id/d%26r%2F17?fetch=email%2Ctitle&flatten=true")
      as Hfst by (vm_compute; reflexivity).
    rewrite Hrun1 in Hfst. exact Hfst.
  - rewrite Hrun2. f_equal. f_equal.
    vm_compute in Hp2. injection Hp2 as <-. reflexivity.
Defined.

End BuildUrl.

(** ** Connections and credentials *)

Module ConnectionFacts.
Import DictFacts StrFacts StoreFacts BuildUrlFacts.

Lemma update_authorization_run self c so w :
  conns w !! self = Some c -> sessions w !! session c = Some so ->
  _update_authorization self w
  = (Ret tt, with_sessions <[session c := authorized c so]> w).
Proof.
  intros Hc Hs. unfold _update_authorization.
  rewrite (bind_ret _ _ _ _ _ (get_conn_run _ _ _ Hc)).
  by rewrite (bind_ret _ _ _ _ _ (get_session_run _ _ _ Hs)).
Qed.

Lemma run_setter_run self c so op w :
  conns w !! self = Some c -> sessions w !! session c = Some so ->
  run_setter self op w
  = (Ret tt, with_sessions <[session c := authorized (apply_setter c op) so]>
               (with_conns <[self := apply_setter c op]> w)).
Proof.
  intros Hc Hs.
  destruct op as [u|p]; cbn [run_setter apply_setter];
    unfold set_username, set_password;
    rewrite (bind_ret _ _ _ _ _ (get_conn_run _ _ _ Hc));
    rewrite bind_run; cbn [put_conn].
  - rewrite (update_authorization_run self (set_conn_username u c) so);
      [reflexivity | apply lookup_insert_eq | exact Hs].
  - rewrite (update_authorization_run self (set_conn_password p c) so);
      [reflexivity | apply lookup_insert_eq | exact Hs].
Qed.

Lemma session_apply_setter c op : session (apply_setter c op) = session c.
Proof. by destruct op. Qed.

Lemma run_setters_run self ops : forall c so w,
  conns w !! self = Some c -> sessions w !! session c = Some so ->
  auth so = Some (resolved_credentials c) ->
  let c' := foldl apply_setter c ops in
  run_setters self ops w
  = (Ret tt, with_sessions <[session c := authorized c' so]>
               (with_conns <[self := c']> w)).
Proof.
  induction ops as [|op ops IH]; intros c so w Hc Hs Hauth; cbn zeta.
  - simpl. f_equal. destruct w as [ds ss cs sn wn]. simpl in *.
    unfold with_sessions, with_conns. simpl. f_equal.
    + symmetry. apply insert_id. rewrite Hs. f_equal.
      unfold authorized, set_auth. rewrite <- Hauth. by destruct so.
    + symmetry. by apply insert_id.
  - cbn [run_setters foldl].
    rewrite (bind_ret _ _ _ _ _ (run_setter_run _ _ _ _ _ Hc Hs)).
    set (c1 := apply_setter c op).
    rewrite (IH c1 (authorized c1 so)).
    + unfold c1. rewrite session_apply_setter.
      destruct w as [ds ss cs sn wn]. unfold with_sessions, with_conns. simpl.
      f_equal. f_equal; by rewrite insert_insert_eq.
    + simpl. apply lookup_insert_eq.
    + simpl. unfold c1. rewrite session_apply_setter. apply lookup_insert_eq.
    + reflexivity.
Qed.

Lemma init_tail c0 w0 so0 :
  sessions w0 !! session c0 = Some so0 ->
  (self0 ← new_conn c0; set_username self0 (Some "anonymous");; mret self0) w0
  = (Ret (fresh_loc (conns w0)),
     World (dicts w0)
       (<[session c0 := authorized (set_conn_username (Some "anonymous") c0) so0]>
          (sessions w0))
       (<[fresh_loc (conns w0) := set_conn_username (Some "anonymous") c0]> (conns w0))
       (sent w0) (warned w0)).
Proof.
  intros Hso0. rewrite bind_run. cbn [new_conn].
  set (self := fresh_loc (conns w0)).
  change (set_username self (Some "anonymous"))
    with (run_setter self (SetUsername (Some "anonymous"))).
  rewrite (bind_ret _ _ _ _ _
             (run_setter_run self c0 so0 (SetUsername (Some "anonymous"))
                (with_conns <[self := c0]> w0)
                (lookup_insert_eq _ _ _) Hso0)).
  cbn [mret M_ret]. f_equal. unfold with_sessions, with_conns. simpl.
  f_equal. by rewrite insert_insert_eq.
Qed.

Lemma init_run host_ port_ base cc sess w :
  match sess with Some s => is_Some (sessions w !! s) | None => True end ->
  let s := init_session sess w in
  let self := fresh_loc (conns w) in
  exists v,
    (cc = false -> v = false) /\
    __init__ host_ port_ base cc sess w
    = (Ret self,
       World (dicts w)
             (<[s := Session (Some ("anonymous", "")) v]> (sessions w))
             (<[self := Connection host_ port_ (normalized_base base) s
                          (Some "anonymous") None]> (conns w))
             (sent w)
             (warned w ++ if cc then [] else [check_certs_warning])).
Proof.
  intros Hsess. cbn zeta. unfold __init__.
  fold (normalized_base base).
  destruct sess as [s|]; cbn [init_session] in *.
  - destruct Hsess as [so Hso].
    rewrite bind_run, (bind_ret _ _ _ _ _ (get_session_run _ _ _ Hso)).
    cbn [mret M_ret]. destruct cc; cbn [negb].
    + exists (verify so). split; [done |].
      rewrite bind_run. cbn [mret M_ret].
      erewrite init_tail; [| exact Hso]. by rewrite app_nil_r.
    + exists false. split; [done |].
      rewrite bind_run, (bind_ret _ _ _ _ _ (get_session_run _ _ _ Hso)).
      rewrite bind_run. cbn [put_session warn].
      erewrite init_tail; [| apply lookup_insert_eq].
      simpl. by rewrite insert_insert_eq.
  - rewrite bind_run. cbn [new_session]. destruct cc; cbn [negb].
    + exists true. split; [done |].
      rewrite bind_run. cbn [mret M_ret].
      erewrite init_tail; [| apply lookup_insert_eq].
      simpl. by rewrite insert_insert_eq, app_nil_r.
    + exists false. split; [done |].
      rewrite bind_run.
      rewrite (bind_ret (get_session _) _ _ _ _
                 (get_session_run _ _ (with_sessions _ w) (lookup_insert_eq _ _ _))).
      rewrite bind_run. cbn [put_session warn].
      erewrite init_tail; [| apply lookup_insert_eq].
      simpl. by rewrite !insert_insert_eq.
Qed.

Lemma credentials_in_use_eq self w c so :
  conns w !! self = Some c -> sessions w !! session c = Some so ->
  credentials_in_use self w = auth so.
Proof.
  intros Hc Hs. unfold credentials_in_use. rewrite Hc. simpl. by rewrite Hs.
Qed.

Lemma run_setters_frame self ops : forall c so w,
  conns w !! self = Some c -> sessions w !! session c = Some so ->
  exists c' so',
    run_setters self ops w
    = (Ret tt, with_sessions <[session c := so']> (with_conns <[self := c']> w)).
Proof.
  induction ops as [|op ops IH]; intros c so w Hc Hs.
  - exists c, so. simpl. f_equal. destruct w. unfold with_sessions, with_conns.
    simpl in *. f_equal; symmetry; by apply insert_id.
  - cbn [run_setters].
    rewrite (bind_ret _ _ _ _ _ (run_setter_run _ _ _ op _ Hc Hs)).
    set (c1 := apply_setter c op).
    destruct (IH c1 (authorized c1 so)
                (with_sessions <[session c := authorized c1 so]>
                   (with_conns <[self := c1]> w))) as (c' & so' & ->).
    + apply lookup_insert_eq.
    + unfold c1. rewrite session_apply_setter. apply lookup_insert_eq.
    + exists c', so'. unfold c1. rewrite session_apply_setter.
      destruct w. unfold with_sessions, with_conns. simpl.
      f_equal. f_equal; by rewrite insert_insert_eq.
Qed.

End ConnectionFacts.

(** ** Invocations *)

Module FrameFacts.
Import StoreFacts.

Lemma same_net_refl w : same_net w w.
Proof. done. Qed.

Lemma same_net_trans w1 w2 w3 : same_net w1 w2 -> same_net w2 w3 -> same_net w1 w3.
Proof. intros (? & ? & ?) (? & ? & ?). unfold same_net. split_and!; congruence. Qed.

Lemma dict_only_ret {A} (a : A) : dict_only (mret a).
Proof. intros w. apply same_net_refl. Qed.

Lemma dict_only_lift {A} (r : res A) : dict_only (lift r).
Proof. intros w. apply same_net_refl. Qed.

Lemma dict_only_get_dict l : dict_only (get_dict l).
Proof. intros w. unfold get_dict. destruct (dicts w !! l); apply same_net_refl. Qed.

Lemma dict_only_get_conn l : dict_only (get_conn l).
Proof. intros w. unfold get_conn. destruct (conns w !! l); apply same_net_refl. Qed.

Lemma dict_only_put_dict l d : dict_only (put_dict l d).
Proof. intros w. done. Qed.

Lemma dict_only_new_dict d : dict_only (new_dict d).
Proof. intros w. done. Qed.

Lemma dict_only_bind {A B} (m : M A) (f : A -> M B) :
  dict_only m -> (forall a, dict_only (f a)) -> dict_only (m ≫= f).
Proof.
  intros Hm Hf w. rewrite bind_run. specialize (Hm w).
  destruct (m w) as [[a|e] w1]; simpl in *; [| done].
  eapply same_net_trans; [exact Hm | apply Hf].
Qed.

Lemma dict_only_quote_items n : forall i l, dict_only (quote_items n i l).
Proof.
  induction n as [|n IH]; intros i l; cbn [quote_items].
  - apply dict_only_ret.
  - apply dict_only_bind; [apply dict_only_get_dict |]. intros d.
    destruct (d !! i) as [[k v]|]; [| apply dict_only_ret].
    apply dict_only_bind; [apply dict_only_put_dict | intros _; apply IH].
Qed.

Lemma dict_only_build_url self path pl ql : dict_only (_build_url self path pl ql).
Proof.
  unfold _build_url.
  apply dict_only_bind; [apply dict_only_get_dict | intros d].
  apply dict_only_bind; [apply dict_only_quote_items | intros _].
  apply dict_only_bind; [apply dict_only_get_dict | intros d'].
  apply dict_only_bind; [apply dict_only_lift | intros p].
  apply dict_only_bind; [apply dict_only_get_dict | intros q].
  apply dict_only_bind.
  { destruct (negb _); [apply dict_only_put_dict | apply dict_only_ret]. }
  intros _.
  apply dict_only_bind; [apply dict_only_get_dict | intros q'].
  apply dict_only_bind; [apply dict_only_get_conn | intros c].
  destruct (Str.startswith _ _); apply dict_only_ret.
Qed.

(** Sequencing after a computation that touches parameter maps only. *)
Lemma one_request_bind {A B} so method (m : M A) (f : A -> M B) (w0 w : world) :
  same_net w0 w -> dict_only m ->
  (forall a w1, m w = (Ret a, w1) -> same_net w0 w1 ->
                one_request so method w0 (snd (f a w1))) ->
  one_request so method w0 (snd ((m ≫= f) w)).
Proof.
  intros Hw Hm Hf. rewrite bind_run. specialize (Hm w).
  destruct (m w) as [[a|e] w1] eqn:Hrun; simpl in Hm.
  - apply Hf; [done |]. by eapply same_net_trans.
  - simpl. destruct (same_net_trans _ _ _ Hw Hm) as (? & ? & ?).
    unfold one_request. auto.
Qed.

Lemma new_requests_one so method w w' rq :
  one_request so method w w' -> rq ∈ new_requests w w' ->
  rq_auth rq = auth so /\ rq_verify rq = verify so /\ rq_method rq = method /\
  rq_headers rq = [("Accept", "application/xml")].
Proof.
  intros (_ & _ & [Hsent | (rq' & Hsent & Hrq)]) Hin; unfold new_requests in Hin;
    rewrite Hsent in Hin.
  - rewrite drop_all in Hin. by apply elem_of_nil in Hin.
  - rewrite drop_app_length in Hin. apply list_elem_of_singleton in Hin.
    by subst.
Qed.

End FrameFacts.

Module InvokeFacts.
Import Urllib DictFacts StrFacts StoreFacts BuildUrlFacts FrameFacts.

Section WithTransport.
Variable transport : list request -> request -> res response.
Variable parse_xml : string -> res IbisResult.
Variable new_error : Z -> string -> IbisError.

Lemma classify_run (resp : response) (w : world) :
  (content_type ← lift (header_get "Content-type" (headers resp));
   if decide (content_type ≠ "application/xml") then
     mret (Failure (set_details (text resp)
                      (set_message "Unexpected result from server"
                         (new_error (status_code resp) (reason resp)))))
   else lift (parse_xml (content resp))) w
  = (classify_response parse_xml new_error (Ret resp), w).
Proof.
  rewrite bind_run. unfold lift, classify_response. simpl.
  destruct (header_get "Content-type" (headers resp)) as [ct|e]; [| done].
  simpl. by destruct (decide (ct ≠ "application/xml")).
Qed.

Lemma invoke_method_run w self c so method path pp qp fp pps qps fps p :
  conns w !! self = Some c -> sessions w !! session c = Some so ->
  _params_to_strings pp = Ret pps ->
  _params_to_strings qp = Ret qps ->
  _params_to_strings fp = Ret fps ->
  py_format path (map_values quote_plus pps) = Ret p ->
  exists w',
    invoke_method transport parse_xml new_error self method path pp qp fp w
    = (classify_response parse_xml new_error
         (transport (sent w) (the_request c so method p qps fps)), w') /\
    sent w' = sent w ++ [the_request c so method p qps fps] /\
    sessions w' = sessions w /\ conns w' = conns w.
Proof.
  intros Hc Hs Hpp Hqp Hfp Hp. unfold invoke_method.
  rewrite Hpp, Hqp, Hfp.
  rewrite bind_run. cbn [lift]. rewrite bind_run. cbn [new_dict].
  set (pl := fresh_loc (dicts w)). set (w1 := with_dicts <[pl := pps]> w).
  rewrite bind_run. cbn [lift]. rewrite bind_run. cbn [new_dict].
  set (ql := fresh_loc (dicts w1)). set (w2 := with_dicts <[ql := qps]> w1).
  rewrite bind_run. cbn [lift]. rewrite bind_run. cbn [new_dict].
  set (fl := fresh_loc (dicts w2)). set (w3 := with_dicts <[fl := fps]> w2).
  assert (dicts w1 !! pl = Some pps) as Hpl1 by apply lookup_insert_eq.
  assert (pl <> ql) as Hne1 by (apply fresh_loc_ne; by eexists).
  assert (dicts w2 !! pl = Some pps) as Hpl2
    by (unfold w2; cbn [dicts with_dicts]; by rewrite lookup_insert_ne).
  assert (dicts w2 !! ql = Some qps) as Hql2 by apply lookup_insert_eq.
  assert (pl <> fl) as Hne2 by (apply fresh_loc_ne; by eexists).
  assert (ql <> fl) as Hne3 by (apply fresh_loc_ne; by eexists).
  assert (dicts w3 !! pl = Some pps) as Hpl3
    by (unfold w3; cbn [dicts with_dicts]; by rewrite lookup_insert_ne).
  assert (dicts w3 !! ql = Some qps) as Hql3
    by (unfold w3; cbn [dicts with_dicts]; by rewrite lookup_insert_ne).
  assert (dicts w3 !! fl = Some fps) as Hfl3 by apply lookup_insert_eq.
  rewrite (bind_ret _ _ _ _ _ (get_conn_run self c w3 Hc)).
  rewrite (bind_ret _ _ _ _ _
             (build_url_run self path pl ql w3 c pps qps p Hc Hpl3 Hql3 Hne1
                (CoercionFacts.params_to_strings_wf _ _ Hpp) Hp)).
  set (w4 := with_dicts _ w3).
  assert (dicts w4 !! fl = Some fps) as Hfl4.
  { unfold w4. cbn [dicts with_dicts]. by rewrite !lookup_insert_ne. }
  rewrite (bind_ret _ _ _ _ _ (get_dict_run _ _ _ Hfl4)).
  set (rq := the_request c so method p qps fps).
  set (w5 := World (dicts w4) (sessions w4) (conns w4) (sent w4 ++ [rq]) (warned w4)).
  exists w5. split; [| done].
  assert (forall data,
            session_request transport (session c) method
              ("https://" +:+ host c +:+ ":" +:+ pretty (port c)
               +:+ url_base c +:+ relative_path p +:+ "?" +:+ urlencode (with_flatten qps))
              data [("Accept", "application/xml")] w4
            = (transport (sent w4)
                 (Request method
                    ("https://" +:+ host c +:+ ":" +:+ pretty (port c)
                       +:+ url_base c +:+ relative_path p +:+ "?"
                       +:+ urlencode (with_flatten qps))
                    [("Accept", "application/xml")] data (auth so) (verify so)),
               World (dicts w4) (sessions w4) (conns w4)
                 (sent w4 ++ [Request method
                    ("https://" +:+ host c +:+ ":" +:+ pretty (port c)
                       +:+ url_base c +:+ relative_path p +:+ "?"
                       +:+ urlencode (with_flatten qps))
                    [("Accept", "application/xml")] data (auth so) (verify so)])
                 (warned w4))) as Hreq.
  { intros data. unfold session_request.
    by rewrite (bind_ret _ _ _ _ _ (get_session_run _ _ w4 Hs)). }
  rewrite bind_run. unfold w5, rq, the_request.
  destruct (0 <? length fps)%nat; rewrite Hreq;
    change (sent w4) with (sent w);
    (destruct (transport (sent w) _) as [resp|e]; [apply classify_run | done]).
Qed.

Lemma invoke_method_sends w self c so method path pp qp fp :
  conns w !! self = Some c -> sessions w !! session c = Some so ->
  one_request so method w
    (snd (invoke_method transport parse_xml new_error self method path pp qp fp w)).
Proof.
  intros Hc Hs. unfold invoke_method.
  apply one_request_bind; [apply same_net_refl | apply dict_only_lift |].
  intros pps w1 _ Hw1.
  apply one_request_bind; [done | apply dict_only_new_dict |].
  intros pl w2 _ Hw2.
  apply one_request_bind; [done | apply dict_only_lift |].
  intros qps w3 _ Hw3.
  apply one_request_bind; [done | apply dict_only_new_dict |].
  intros ql w4 _ Hw4.
  apply one_request_bind; [done | apply dict_only_lift |].
  intros fps w5 _ Hw5.
  apply one_request_bind; [done | apply dict_only_new_dict |].
  intros fl w6 _ Hw6.
  apply one_request_bind; [done | apply dict_only_get_conn |].
  intros c' w7 Hc' Hw7.
  assert (c' = c) as ->.
  { destruct Hw6 as (_ & _ & Hconns). unfold get_conn in Hc'.
    rewrite Hconns, Hc in Hc'. by injection Hc' as <-. }
  apply one_request_bind; [done | apply dict_only_build_url |].
  intros rel w8 _ Hw8.
  apply one_request_bind; [done | apply dict_only_get_dict |].
  intros fd w9 _ (Hsent & Hsess & Hconns).
  rewrite bind_run.
  assert (sessions w9 !! session c = Some so) as Hs9 by (by rewrite Hsess).
  assert (forall data url,
    exists r rq,
      session_request transport (session c) method url data
        [("Accept", "application/xml")] w9
      = (r, World (dicts w9) (sessions w9) (conns w9) (sent w9 ++ [rq]) (warned w9)) /\
      rq_auth rq = auth so /\ rq_verify rq = verify so /\ rq_method rq = method /\
      rq_headers rq = [("Accept", "application/xml")]) as Hreq.
  { intros data url. unfold session_request.
    rewrite (bind_ret _ _ _ _ _ (get_session_run _ _ w9 Hs9)).
    unfold round_trip. by eexists _, _. }
  assert (forall data url,
    one_request so method w
      (snd (match session_request transport (session c) method url data
                    [("Accept", "application/xml")] w9 with
            | (Ret resp, w') =>
                (content_type ← lift (header_get "Content-type" (headers resp));
                 if decide (content_type ≠ "application/xml") then
                   mret (Failure (set_details (text resp)
                                    (set_message "Unexpected result from server"
                                       (new_error (status_code resp) (reason resp)))))
                 else lift (parse_xml (content resp))) w'
            | (Raise e, w') => (Raise e, w')
            end))) as Hgoal.
  { intros data url.
    destruct (Hreq data url) as (r & rq & -> & Hrq).
    assert (one_request so method w
              (World (dicts w9) (sessions w9) (conns w9) (sent w9 ++ [rq]) (warned w9)))
      as Hone.
    { unfold one_request. simpl. split_and!; [done | done |].
      right. exists rq. by rewrite Hsent. }
    destruct r as [resp|e]; [| exact Hone].
    by rewrite classify_run. }
  destruct (0 <? length fd)%nat; apply Hgoal.
Qed.

End WithTransport.

End InvokeFacts.

Section Claims.
Import Urllib DictFacts StoreFacts ConnectionFacts FrameFacts InvokeFacts.
Variable transport : list request -> request -> res response.
Variable parse_xml : string -> res IbisResult.
Variable new_error : Z -> string -> IbisError.

(** C1: when the parameters are coerced and the URL is built, and the
    transport answers the request with a response whose [Content-type]
    header is not exactly [application/xml], [invoke_method] returns (it
    does not raise) a [Failure].  Its error is the object the [IbisError]
    constructor makes of the entries [status] = the HTTP status code and
    [code] = the HTTP reason phrase, to which [invoke_method] assigns the
    fixed message ["Unexpected result from server"] and the body text as
    [details]; [status] and [code] are what the constructor stored, since
    [invoke_method] assigns neither. *)
Theorem unexpected_content_type_is_failure
    w self c so method path pp qp fp pps qps fps p resp ct :
  conns w !! self = Some c -> sessions w !! session c = Some so ->
  _params_to_strings pp = Ret pps ->
  _params_to_strings qp = Ret qps ->
  _params_to_strings fp = Ret fps ->
  py_format path (map_values quote_plus pps) = Ret p ->
  transport (sent w) (the_request c so method p qps fps) = Ret resp ->
  header_get "Content-type" (headers resp) = Ret ct ->
  ct <> "application/xml" ->
  exists w' err,
    invoke_method transport parse_xml new_error self method path pp qp fp w
    = (Ret (Failure err), w') /\
    err = set_details (text resp)
            (set_message "Unexpected result from server"
               (new_error (status_code resp) (reason resp))) /\
    message err = Some "Unexpected result from server" /\
    details err = Some (text resp) /\
    status err = status (new_error (status_code resp) (reason resp)) /\
    code err = code (new_error (status_code resp) (reason resp)).
Proof.
  intros Hc Hs Hpp Hqp Hfp Hp Hresp Hct Hne.
  destruct (invoke_method_run transport parse_xml new_error w self c so method path
              pp qp fp pps qps fps p Hc Hs Hpp Hqp Hfp Hp) as (w' & -> & _).
  exists w', (transport_error new_error resp). split; [| done].
  f_equal. rewrite Hresp. unfold classify_response. simpl.
  rewrite Hct. simpl. by rewrite decide_True.
Qed.

(** C2: a connection built for host [example.org], port 443 and base path
    [""], asked to [GET] the template [api/v1/person/%(scheme)s/%(identifier)s]
    with path parameters [scheme = crsid], [identifier = dar17] and query
    parameter [fetch = email,title], makes exactly one request, whose URL is
    [https://example.org:443/api/v1/person/crsid/dar17?fetch=email%2Ctitle&flatten=true]
    whatever the world was before, whether or not certificates are checked,
    and whatever the server answers. *)
Theorem example_org_absolute_url (check_certs : bool) (w : world) :
  exists self w1 r w2 rq,
    __init__ "example.org" 443 "" check_certs None w = (Ret self, w1) /\
    invoke_method transport parse_xml new_error self "GET"
      "api/v1/person/%(scheme)s/%(identifier)s"
      [("scheme", VStr "crsid"); ("identifier", VStr "dar17")]
      [("fetch", VStr "email,title")] [] w1 = (r, w2) /\
    sent w2 = sent w1 ++ [rq] /\
    rq_method rq = "GET" /\
    rq_url rq
    = "https://example.org:443/api/v1/person/crsid/dar17?fetch=email%2Ctitle&flatten=true".
Proof.
  destruct (init_run "example.org" 443 "" check_certs None w I)
    as (v & _ & Hinit).
  cbn [init_session] in Hinit.
  set (self := fresh_loc (conns w)) in *.
  set (c0 := Connection "example.org" 443 (normalized_base "")
               (fresh_loc (sessions w)) (Some "anonymous") None) in *.
  set (so0 := Session (Some ("anonymous", "")) v) in *.
  set (w1 := World _ _ _ _ _) in Hinit.
  assert (conns w1 !! self = Some c0) as Hc0 by apply lookup_insert_eq.
  assert (sessions w1 !! session c0 = Some so0) as Hs0 by apply lookup_insert_eq.
  destruct (invoke_method_run transport parse_xml new_error w1 self c0 so0 "GET"
              "api/v1/person/%(scheme)s/%(identifier)s"
              [("scheme", VStr "crsid"); ("identifier", VStr "dar17")]
              [("fetch", VStr "email,title")] []
              [("scheme", "crsid"); ("identifier", "dar17")]
              [("fetch", "email,title")] []
              "api/v1/person/crsid/dar17"
              Hc0 Hs0 eq_refl eq_refl eq_refl eq_refl)
    as (w2 & Hrun & Hsent & _).
  exists self, w1. eexists _, w2, _.
  split; [exact Hinit |]. split; [exact Hrun |]. split; [exact Hsent |].
  split; reflexivity.
Qed.

(** C4: for two connections created independently of each other (two
    distinct connection objects that do not share a session object), any
    sequence of [set_username] and [set_password] calls on the first succeeds
    and leaves the second connection, its session and the credentials it
    uses as they were: every request an invocation through the second
    connection makes afterwards carries the credentials it had before. *)
Theorem credentials_are_per_instance w c1 c2 k1 k2 so1 so2 ops :
  c1 <> c2 ->
  conns w !! c1 = Some k1 -> conns w !! c2 = Some k2 ->
  session k1 <> session k2 ->
  sessions w !! session k1 = Some so1 ->
  sessions w !! session k2 = Some so2 ->
  exists w',
    run_setters c1 ops w = (Ret tt, w') /\
    conns w' !! c2 = Some k2 /\
    sessions w' !! session k2 = Some so2 /\
    credentials_in_use c2 w' = credentials_in_use c2 w /\
    forall method path pp qp fp rq,
      rq ∈ new_requests w'
             (snd (invoke_method transport parse_xml new_error c2 method path pp qp fp w')) ->
      rq_auth rq = credentials_in_use c2 w.
Proof.
  intros Hne Hk1 Hk2 Hsess Hs1 Hs2.
  destruct (run_setters_frame c1 ops k1 so1 w Hk1 Hs1) as (k1' & so1' & Hrun).
  eexists. split; [exact Hrun |].
  set (w' := with_sessions _ _).
  assert (conns w' !! c2 = Some k2) as Hk2'
    by (unfold w'; simpl; by rewrite lookup_insert_ne).
  assert (sessions w' !! session k2 = Some so2) as Hs2'
    by (unfold w'; simpl; by rewrite lookup_insert_ne).
  assert (credentials_in_use c2 w = auth so2) as Hcred
    by (by eapply credentials_in_use_eq).
  assert (credentials_in_use c2 w' = auth so2) as Hcred'
    by (by eapply credentials_in_use_eq).
  split_and!; [done | done | congruence |].
  intros method path pp qp fp rq Hin. rewrite Hcred.
  eapply new_requests_one; [| exact Hin].
  by apply (invoke_method_sends transport parse_xml new_error w' c2 k2 so2).
Qed.

(** C5: after construction and after any sequence of [set_username] and
    [set_password] calls, also with [None] as argument, the session holds a
    pair of two strings, and every request made by an invocation carries
    that pair: the user name is the last one set, or ["anonymous"] when that
    is [None] (the constructor sets ["anonymous"]); the password is the last
    one set, or the empty string when that is [None] or none was set. *)
Theorem credentials_always_resolved host_ port_ base cc sess w ops :
  match sess with Some s => is_Some (sessions w !! s) | None => True end ->
  exists self w1 w2 c,
    __init__ host_ port_ base cc sess w = (Ret self, w1) /\
    run_setters self ops w1 = (Ret tt, w2) /\
    conns w2 !! self = Some c /\
    username c = foldl (fun u op => match op with SetUsername u' => u' | _ => u end)
                   (Some "anonymous") ops /\
    password c = foldl (fun p op => match op with SetPassword p' => p' | _ => p end)
                   None ops /\
    credentials_in_use self w2
    = Some (default "anonymous" (username c), default "" (password c)) /\
    forall method path pp qp fp rq,
      rq ∈ new_requests w2
             (snd (invoke_method transport parse_xml new_error self method path pp qp fp w2)) ->
      rq_auth rq = Some (default "anonymous" (username c), default "" (password c)).
Proof.
  intros Hsess.
  destruct (init_run host_ port_ base cc sess w Hsess) as (v & _ & Hinit).
  set (s := init_session sess w) in *. set (self := fresh_loc (conns w)) in *.
  set (c0 := Connection host_ port_ (normalized_base base) s (Some "anonymous") None) in *.
  set (so0 := Session (Some ("anonymous", "")) v) in *.
  set (w1 := World _ _ _ _ _) in Hinit.
  assert (conns w1 !! self = Some c0) as Hc0 by apply lookup_insert_eq.
  assert (sessions w1 !! session c0 = Some so0) as Hs0 by apply lookup_insert_eq.
  pose proof (run_setters_run self ops c0 so0 w1 Hc0 Hs0 eq_refl) as Hrun.
  cbn zeta in Hrun.
  set (c := foldl apply_setter c0 ops) in *.
  set (w2 := with_sessions _ _) in Hrun.
  assert (session c = s) as Hsc.
  { unfold c. clear. induction ops as [|op ops IH] using rev_ind; [done |].
    by rewrite foldl_snoc, session_apply_setter. }
  assert (conns w2 !! self = Some c) as Hc2 by apply lookup_insert_eq.
  assert (sessions w2 !! session c = Some (authorized c so0)) as Hs2
    by (rewrite Hsc; apply lookup_insert_eq).
  assert (resolved_credentials c
          = (default "anonymous" (username c), default "" (password c))) as Hres
    by (unfold resolved_credentials; by destruct (username c), (password c)).
  exists self, w1, w2, c. split_and!; try done.
  - unfold c. clear. induction ops as [|op ops IH] using rev_ind; [done |].
    rewrite !foldl_snoc, <- IH. by destruct op.
  - unfold c. clear. induction ops as [|op ops IH] using rev_ind; [done |].
    rewrite !foldl_snoc, <- IH. by destruct op.
  - rewrite (credentials_in_use_eq _ _ _ _ Hc2 Hs2). simpl. by rewrite Hres.
  - intros method path pp qp fp rq Hin. rewrite <- Hres.
    change (Some (resolved_credentials c)) with (auth (authorized c so0)).
    eapply new_requests_one; [| exact Hin].
    by apply (invoke_method_sends transport parse_xml new_error w2 self c (authorized c so0)).
Qed.

End Claims.

(** ** The claims at concrete inputs *)

Lemma unexpected_content_type_is_failure_witness :
  exists w',
    invoke_method failing_server no_xml status_only_error 0%nat "GET" demo_path
      [("scheme", VStr "crs id"); ("identifier", VStr "d&r/17")] [] [] demo_world
    = (Ret (Failure (MkError (Some 500) None
                       (Some "Unexpected result from server")
                       (Some "<html>boom</html>"))), w').
Proof.
  destruct (unexpected_content_type_is_failure failing_server no_xml
              status_only_error
              demo_world 0%nat demo_conn (Session (Some ("anonymous", "")) true)
              "GET" demo_path
              [("scheme", VStr "crs id"); ("identifier", VStr "d&r/17")] [] []
              demo_path_params [] [] "api/v1/person/crs+id/d%26r%2F17"
              html_500 "text/html")
    as (w' & err & Hrun & -> & _); try reflexivity; [discriminate |].
  exists w'. exact Hrun.
Defined.

Lemma credentials_are_per_instance_witness :
  exists w',
    run_setters 0%nat [SetUsername (Some "mygroup"); SetPassword (Some "secret")]
      two_connections = (Ret tt, w') /\
    credentials_in_use 1%nat w' = Some ("anonymous", "").
Proof.
  destruct (credentials_are_per_instance failing_server no_xml status_only_error two_connections
              0%nat 1%nat
              (Connection "www.lookup.cam.ac.uk" 443 "/" 0%nat (Some "anonymous") None)
              (Connection "lookup-test.srv.uis.cam.ac.uk" 443 "/" 1%nat
                 (Some "anonymous") None)
              (Session (Some ("anonymous", "")) true)
              (Session (Some ("anonymous", "")) true)
              [SetUsername (Some "mygroup"); SetPassword (Some "secret")])
    as (w' & Hrun & _ & _ & Hcred & _);
    [discriminate | vm_compute; reflexivity | vm_compute; reflexivity
    | simpl; discriminate | vm_compute; reflexivity | vm_compute; reflexivity |].
  exists w'. split; [exact Hrun |]. rewrite Hcred. vm_compute. reflexivity.
Defined.

Lemma credentials_always_resolved_witness :
  exists self w2,
    (c ← createLocalConnection;
     run_setters c [SetPassword (Some "secret"); SetUsername None;
                    SetPassword None];;
     mret c) empty_world = (Ret self, w2) /\
    credentials_in_use self w2 = Some ("anonymous", "").
Proof.
  destruct (credentials_always_resolved failing_server no_xml status_only_error
              "localhost" 8443 "ibis" false None empty_world
              [SetPassword (Some "secret"); SetUsername None; SetPassword None] I)
    as (self & w1 & w2 & c & Hinit & Hrun & _ & Hu & Hp & Hcred & _).
  exists self, w2. split.
  - unfold createLocalConnection.
    rewrite (StoreFacts.bind_ret _ _ _ _ _ Hinit).
    by rewrite (StoreFacts.bind_ret _ _ _ _ _ Hrun).
  - rewrite Hcred, Hu, Hp. reflexivity.
Defined.

(** ** Remarks on the boundaries of the claims *)

(** Two connections created one after the other without a [session]
    argument are distinct objects with distinct sessions, whatever the
    world was before: they satisfy the hypotheses of C4. *)
Lemma independent_connections_distinct h1 p1 b1 cc1 h2 p2 b2 cc2 w :
  exists c1 w1 c2 w2 k1 k2,
    __init__ h1 p1 b1 cc1 None w = (Ret c1, w1) /\
    __init__ h2 p2 b2 cc2 None w1 = (Ret c2, w2) /\
    c1 <> c2 /\
    conns w2 !! c1 = Some k1 /\ conns w2 !! c2 = Some k2 /\
    session k1 <> session k2 /\
    is_Some (sessions w2 !! session k1) /\ is_Some (sessions w2 !! session k2).
Proof.
  destruct (ConnectionFacts.init_run h1 p1 b1 cc1 None w I) as (v1 & _ & H1).
  cbn [init_session] in H1.
  set (w1 := World _ _ _ _ _) in H1.
  destruct (ConnectionFacts.init_run h2 p2 b2 cc2 None w1 I) as (v2 & _ & H2).
  cbn [init_session] in H2.
  set (w2 := World _ _ _ _ _) in H2.
  set (c1 := fresh_loc (conns w)) in *. set (c2 := fresh_loc (conns w1)) in *.
  set (s1 := fresh_loc (sessions w)) in *. set (s2 := fresh_loc (sessions w1)) in *.
  assert (c1 <> c2) as Hc.
  { apply StoreFacts.fresh_loc_ne. unfold w1. cbn [conns].
    rewrite lookup_insert_eq. by eexists. }
  assert (s1 <> s2) as Hs.
  { apply StoreFacts.fresh_loc_ne. unfold w1. cbn [sessions].
    rewrite lookup_insert_eq. by eexists. }
  exists c1, w1, c2, w2. eexists _, _.
  split; [exact H1 |]. split; [exact H2 |]. split; [exact Hc |].
  unfold w2, w1. cbn [conns sessions].
  split; [rewrite lookup_insert_ne by done; apply lookup_insert_eq |].
  split; [apply lookup_insert_eq |]. cbn [session].
  split; [exact Hs |].
  split; [rewrite lookup_insert_ne by done; rewrite lookup_insert_eq
         | rewrite lookup_insert_eq]; by eexists.
Qed.

(** The hypothesis of C4 that the sessions differ cannot be dropped: the
    credentials live in the session, so two connections that were handed the
    same session object share them. *)
Lemma injected_session_is_shared :
  exists c2 w,
    (c1 ← __init__ "a.example.org" 443 "" true None;
     k1 ← get_conn c1;
     c2 ← __init__ "b.example.org" 443 "" true (Some (session k1));
     set_username c1 (Some "mygroup");;
     set_password c1 (Some "secret");;
     mret c2) empty_world = (Ret c2, w) /\
    credentials_in_use c2 w = Some ("mygroup", "secret").
Proof. eexists _, _. split; vm_compute; reflexivity. Qed.

(** C1 speaks of responses that declare a content type: without the header
    the lookup [response.headers["Content-type"]] raises. *)
Lemma missing_content_type_raises :
  fst (invoke_method
         (fun _ _ => Ret (Response [] 502 "Bad Gateway" "" "")) no_xml
         status_only_error 0%nat "GET" "api/v1/version" [] [] [] demo_world)
  = Raise (KeyError "content-type").
Proof. vm_compute. reflexivity. Qed.

(** * Further properties of the code *)

Import DictFacts StrFacts StoreFacts BuildUrlFacts CoercionFacts.

Module CoercionExtra.

Lemma params_loop_cons k v rest acc :
  params_loop ((k, v) :: rest) acc
  = if is_none v then params_loop rest acc
    else s ← to_wire v; params_loop rest (Dict.set k s acc).
Proof. by destruct v. Qed.

Lemma get_set_ne {V} (k k' : string) (v : V) (d : dict V) :
  k <> k' -> Dict.get k' (Dict.set k v d) = Dict.get k' d.
Proof.
  intros Hne. induction d as [|[k0 v0] d IH]; simpl.
  - by rewrite decide_False.
  - destruct (decide (k0 = k)) as [->|Hk0]; simpl.
    + by rewrite !decide_False.
    + destruct (decide (k0 = k')); [done | exact IH].
Qed.

Lemma nodup_app_cons (ka ki : list string) (k : string) :
  NoDup (ka ++ k :: ki) -> (k ∉ ka) /\ (k ∉ ki) /\ NoDup (ka ++ ki).
Proof.
  intros Hwf.
  apply NoDup_app in Hwf as (H1 & H2 & H3). apply NoDup_cons in H3 as [H3 H4].
  split_and!; [| done |].
  - intros Hin. apply (H2 k Hin). apply list_elem_of_here.
  - apply NoDup_app. split_and!; [done | | done].
    intros x Hx Hx'. apply (H2 x Hx). by apply list_elem_of_further.
Qed.

Lemma keys_set_fresh {V} (k : string) (v : V) (d : dict V) :
  k ∉ keys d -> keys (Dict.set k v d) = keys d ++ [k].
Proof. intros Hk. rewrite set_fresh by done. apply keys_app. Qed.

Lemma params_loop_lookup items : forall acc out,
  params_loop items acc = Ret out -> NoDup (keys acc ++ keys items) ->
  forall k, Dict.get k out
            = match Dict.get k items with
              | Some v => wire_of v
              | None => Dict.get k acc
              end.
Proof.
  induction items as [|[k0 v0] items IH]; intros acc out Hrun Hwf k.
  - simpl in *. by injection Hrun as <-.
  - rewrite params_loop_cons in Hrun.
    change (keys ((k0, v0) :: items)) with (k0 :: keys items) in Hwf.
    destruct (nodup_app_cons _ _ _ Hwf) as (Hacc & Hk0 & Hwf').
    pose proof Hacc as Hacc'.
    apply get_None in Hk0. apply get_None in Hacc.
    cbn [Dict.get]. destruct (is_none v0) eqn:Hnone.
    + rewrite (IH _ _ Hrun Hwf' k).
      destruct (decide (k0 = k)) as [<-|Hne]; [| done].
      rewrite Hk0, Hacc. unfold wire_of. by rewrite Hnone.
    + destruct (to_wire v0) as [s|e] eqn:Hs; simpl in Hrun; [| done].
      assert (NoDup (keys (Dict.set k0 s acc) ++ keys items)) as Hwf''.
      { rewrite keys_set_fresh by done. by rewrite <- app_assoc. }
      rewrite (IH _ _ Hrun Hwf'' k).
      destruct (decide (k0 = k)) as [<-|Hne].
      * rewrite Hk0, get_set_eq. unfold wire_of. by rewrite Hnone, Hs.
      * destruct (Dict.get k items); [done |]. by apply get_set_ne.
Qed.

Lemma params_loop_keys items : forall acc out,
  params_loop items acc = Ret out -> NoDup (keys acc ++ keys items) ->
  keys out = keys acc ++ keys (filter (fun kv => is_none (snd kv) = false) items).
Proof.
  induction items as [|[k0 v0] items IH]; intros acc out Hrun Hwf.
  - simpl in *. injection Hrun as <-. by rewrite app_nil_r.
  - rewrite params_loop_cons in Hrun.
    change (keys ((k0, v0) :: items)) with (k0 :: keys items) in Hwf.
    destruct (nodup_app_cons _ _ _ Hwf) as (Hk0 & _ & Hwf').
    rewrite filter_cons. simpl. destruct (is_none v0) eqn:Hnone.
    + rewrite decide_False by done. by apply IH.
    + rewrite decide_True by done.
      destruct (to_wire v0) as [s|e] eqn:Hs; simpl in Hrun; [| done].
      rewrite (IH _ _ Hrun).
      * rewrite keys_set_fresh by done. simpl. by rewrite <- app_assoc.
      * rewrite keys_set_fresh by done. by rewrite <- app_assoc.
Qed.

End CoercionExtra.

(** X1: for a parameter map (unique keys) that [_params_to_strings] coerces,
    the result has exactly the keys whose value is not [None], in the order
    of the input, and looking a key up gives the coerced string of its value
    (nothing for an absent key or a [None] value). *)
Theorem params_to_strings_lookup (params : dict value) (out : dict string) :
  wf params ->
  _params_to_strings params = Ret out ->
  keys out = keys (filter (fun kv => is_none (snd kv) = false) params) /\
  forall k, Dict.get k out
            = match Dict.get k params with
              | Some v => wire_of v
              | None => None
              end.
Proof.
  intros Hwf Hrun. split.
  - by apply (CoercionExtra.params_loop_keys params []).
  - intros k. by rewrite (CoercionExtra.params_loop_lookup params [] out Hrun Hwf k).
Qed.

Lemma params_to_strings_lookup_witness :
  keys [("fetch", "email,title"); ("limit", "10")] = ["fetch"; "limit"] /\
  Dict.get "skip" [("fetch", "email,title"); ("limit", "10")] = None.
Proof.
  destruct (params_to_strings_lookup
              [("fetch", VList [VStr "email"; VStr "title"]); ("skip", VNone);
               ("limit", VInt 10)]
              [("fetch", "email,title"); ("limit", "10")])
    as [Hkeys Hget].
  - unfold wf. refine (bool_decide_unpack _ _). vm_compute. exact I.
  - reflexivity.
  - split; [exact Hkeys | exact (Hget "skip")].
Defined.

Module OutcomeFacts.

Lemma str_items_outcome xs :
  if forallb is_str xs then exists ss, str_items xs = Ret ss
  else str_items xs = Raise TypeError.
Proof.
  induction xs as [|x xs IH]; simpl; [by eexists |].
  destruct x; simpl; try done.
  destruct (forallb is_str xs).
  - destruct IH as [ss ->]. by eexists.
  - by rewrite IH.
Qed.

Lemma comma_join_outcome xs :
  if forallb is_str xs then exists s, comma_join xs = Ret s
  else comma_join xs = Raise TypeError.
Proof.
  unfold comma_join. pose proof (str_items_outcome xs) as H.
  destruct (forallb is_str xs).
  - destruct H as [ss ->]. by eexists.
  - by rewrite H.
Qed.

Lemma valid_date_wire d : valid_date d -> exists s, to_wire (VDate d) = Ret s.
Proof.
  intros (_ & Hm & _).
  destruct (DateFacts.month_name (month d) Hm) as (mon & Hidx & _).
  simpl. rewrite Hidx. by eexists.
Qed.

Lemma params_loop_outcome items : forall acc,
  dates_valid items -> calls_return items ->
  if sequences_ok items then exists out, params_loop items acc = Ret out
  else params_loop items acc = Raise TypeError.
Proof.
  induction items as [|[k v] items IH]; intros acc Hdates Hcalls; [by eexists |].
  assert (dates_valid items) as Hdates'.
  { intros k' d Hin. apply (Hdates k'). by apply list_elem_of_further. }
  assert (calls_return items) as Hcalls'.
  { intros k' r [Hin | Hin]; apply (Hcalls k'); [left | right];
      by apply list_elem_of_further. }
  unfold sequences_ok. cbn [forallb snd]. fold (sequences_ok items).
  destruct v as [|b|d|xs|xs|e|z|o|s]; cbn [params_loop];
    try (simpl; by apply IH).
  - destruct b; simpl; by apply IH.
  - destruct (valid_date_wire d) as [s ->];
      [apply (Hdates k); apply list_elem_of_here |]. simpl. by apply IH.
  - cbn [to_wire]. pose proof (comma_join_outcome xs) as H.
    destruct (forallb is_str xs); simpl.
    + destruct H as [s ->]. simpl. by apply IH.
    + by rewrite H.
  - cbn [to_wire]. pose proof (comma_join_outcome xs) as H.
    destruct (forallb is_str xs); simpl.
    + destruct H as [s ->]. simpl. by apply IH.
    + by rewrite H.
  - destruct (Hcalls k e) as [s ->]; [left; apply list_elem_of_here |].
    simpl. by apply IH.
  - destruct (Hcalls k o) as [s ->]; [right; apply list_elem_of_here |].
    simpl. by apply IH.
Qed.

End OutcomeFacts.

(** X2: when every date in the map is a valid date and every
    [encoded_string()] and [str()] call on a value of the map returns,
    [_params_to_strings] returns a map if every list or tuple in it holds
    strings only, and raises [TypeError] (from [",".join]) otherwise. *)
Theorem params_to_strings_outcome (params : dict value) :
  dates_valid params -> calls_return params ->
  (sequences_ok params = true -> exists out, _params_to_strings params = Ret out) /\
  (sequences_ok params = false -> _params_to_strings params = Raise TypeError).
Proof.
  intros Hdates Hcalls.
  pose proof (OutcomeFacts.params_loop_outcome params [] Hdates Hcalls) as H.
  fold (_params_to_strings params) in H.
  destruct (sequences_ok params); split; intros; done.
Qed.

Lemma params_to_strings_outcome_witness :
  _params_to_strings [("a", VObj (Ret "1.5"));
                      ("fetch", VList [VStr "email"; VInt 2])]
  = Raise TypeError.
Proof.
  apply (params_to_strings_outcome
           [("a", VObj (Ret "1.5")); ("fetch", VList [VStr "email"; VInt 2])]);
    [| | reflexivity].
  - intros k d Hin.
    repeat (apply elem_of_cons in Hin as [Hin | Hin]; [discriminate Hin |]).
    by apply elem_of_nil in Hin.
  - intros k r [Hin | Hin];
      repeat (apply elem_of_cons in Hin as [Hin | Hin];
              [first [discriminate Hin | injection Hin as -> ->; by eexists] |]);
      by apply elem_of_nil in Hin.
Defined.

Module DateExtra.

Lemma day_decodes (z : Z) :
  1 <= z <= 31 ->
  exists a b, fmt_02d z = String a (String b "") /\
              decimal_value (String a (String b "")) = z.
Proof.
  intros Hz.
  pose proof (DateFacts.range_check
                (fun z => match fmt_02d z with
                          | String a (String b "") =>
                              decimal_value (String a (String b "")) =? z
                          | _ => false
                          end) 1 31) as H.
  specialize (H ltac:(vm_compute; reflexivity) z ltac:(lia)). simpl in H.
  destruct (fmt_02d z) as [|a [|b [|? ?]]]; try done.
  exists a, b. split; [done |]. by apply Z.eqb_eq.
Qed.

Lemma year_decodes (z : Z) : 1 <= z <= 9999 -> decimal_value (fmt_d z) = z.
Proof.
  intros Hz. apply Z.eqb_eq.
  apply (DateFacts.range_check (fun z => decimal_value (fmt_d z) =? z) 1 9999);
    [vm_compute; reflexivity | lia].
Qed.

Lemma month_decodes (m : Z) :
  1 <= m <= 12 ->
  exists m1 m2 m3,
    py_index _MONTHS (m - 1) = Ret (String m1 (String m2 (String m3 ""))) /\
    month_number (String m1 (String m2 (String m3 ""))) = m.
Proof.
  intros Hm.
  assert (m = 1 \/ m = 2 \/ m = 3 \/ m = 4 \/ m = 5 \/ m = 6 \/ m = 7 \/
          m = 8 \/ m = 9 \/ m = 10 \/ m = 11 \/ m = 12) as Hcases by lia.
  repeat destruct Hcases as [-> | Hcases]; try subst m;
    (eexists _, _, _; split; reflexivity).
Qed.

End DateExtra.

(** X3: the wire format of a valid date determines the date: reading the
    day from the first two characters, the month from the abbreviation and the
    year from the rest gives the date back, so two valid dates with the same
    wire string are equal. *)
Theorem date_wire_round_trip (d : date) (s : string) :
  valid_date d ->
  to_wire (VDate d) = Ret s ->
  parse_wire_date s = Some d /\
  forall d', valid_date d' -> to_wire (VDate d') = Ret s -> d' = d.
Proof.
  assert (forall d s, valid_date d -> to_wire (VDate d) = Ret s ->
                      parse_wire_date s = Some d) as Hparse.
  { clear. intros d s (Hy & Hm & Hd) Hs.
    pose proof (DateFacts.days_in_month_le (year d) (month d)) as Hle.
    destruct (DateExtra.day_decodes (day d) ltac:(lia)) as (a & b & Hdd & Hdv).
    destruct (DateExtra.month_decodes (month d) Hm) as (m1 & m2 & m3 & Hidx & Hmv).
    cbn [to_wire] in Hs. rewrite Hidx, Hdd in Hs. simpl in Hs.
    injection Hs as <-. cbn [parse_wire_date].
    rewrite Hdv, Hmv, (DateExtra.year_decodes (year d) Hy). by destruct d. }
  intros Hv Hs. split; [by apply Hparse |].
  intros d' Hv' Hs'.
  pose proof (Hparse d s Hv Hs) as H1. pose proof (Hparse d' s Hv' Hs') as H2.
  congruence.
Qed.

Lemma date_wire_round_trip_witness :
  parse_wire_date "29 Feb 2024" = Some (Date 2024 2 29).
Proof.
  apply (date_wire_round_trip (Date 2024 2 29) "29 Feb 2024").
  - vm_compute. intuition congruence.
  - reflexivity.
Defined.

Module EncodingExtra.
Import Str Urllib UrllibFacts.

Lemma unquote_char (c : ascii) (rest : string) :
  unquote_plus (form_encode_char c +:+ rest) = String c (unquote_plus rest).
Proof. each_byte c; reflexivity. Qed.

Lemma unquote_form_encode (s : string) : unquote_plus (form_encode s) = s.
Proof.
  induction s as [|c s IH]; [done |].
  cbn [form_encode]. by rewrite unquote_char, IH.
Qed.

Lemma form_encode_char_facts (c : ascii) :
  mem "=" (form_encode_char c) = false /\
  all url_char (form_encode_char c) = true /\
  (1 <= String.length (form_encode_char c) <= 3)%nat.
Proof. each_byte c; split_and!; (reflexivity || (vm_compute; lia)). Qed.

Lemma all_app (p : ascii -> bool) (a b : string) :
  all p (a +:+ b) = all p a && all p b.
Proof.
  induction a as [|x a IH]; simpl; [done |]. by rewrite IH, andb_assoc.
Qed.

Lemma length_app (a b : string) :
  String.length (a +:+ b) = (String.length a + String.length b)%nat.
Proof. induction a as [|x a IH]; simpl; [done | by rewrite IH]. Qed.

Lemma quote_plus_no_eq (s : string) : mem "=" (quote_plus s) = false.
Proof.
  rewrite quote_plus_form_encode. induction s as [|c s IH]; simpl; [done |].
  rewrite StrFacts.mem_app, IH.
  by destruct (form_encode_char_facts c) as (-> & _).
Qed.

Lemma safe_char (c : ascii) :
  always_safe c = true -> form_encode_char c = String c "".
Proof. intros H. each_byte c; try reflexivity; by vm_compute in H. Qed.

Lemma parse_encode_pair (kv : string * string) :
  parse_pair (encode_pair kv) = kv.
Proof.
  destruct kv as [k v]. unfold parse_pair, encode_pair. cbn [fst snd].
  change (quote_plus k +:+ "=" +:+ quote_plus v)
    with (quote_plus k +:+ String "=" (quote_plus v)).
  rewrite StrFacts.split_app_sep by apply quote_plus_no_eq.
  rewrite StrFacts.split_no_sep by apply quote_plus_no_eq.
  by rewrite !quote_plus_form_encode, !unquote_form_encode.
Qed.

End EncodingExtra.

(** X4: [quote_plus] loses nothing: decoding plus signs and percent
    escapes gives the original string back, so distinct values never get the
    same encoding. *)
Theorem unquote_plus_quote_plus (s : string) :
  unquote_plus (Urllib.quote_plus s) = s /\
  forall s', Urllib.quote_plus s' = Urllib.quote_plus s -> s' = s.
Proof.
  assert (forall x, unquote_plus (Urllib.quote_plus x) = x) as Hrt.
  { intros x. rewrite UrllibFacts.quote_plus_form_encode.
    apply EncodingExtra.unquote_form_encode. }
  split; [apply Hrt |]. intros s' Heq.
  rewrite <- (Hrt s'), Heq. apply Hrt.
Qed.

(** X5: the output of [quote_plus] consists of unreserved characters,
    plus signs and percent signs only, hence is ASCII, and its length is
    between one and three times the number of bytes of the UTF-8 encoding of
    the input ([len(s.encode())], which exceeds [len(s)] when [s] is not
    ASCII). *)
Theorem quote_plus_alphabet (s : string) :
  Str.all url_char (Urllib.quote_plus s) = true /\
  (utf8_len s <= String.length (Urllib.quote_plus s) <= 3 * utf8_len s)%nat.
Proof.
  unfold utf8_len. rewrite UrllibFacts.quote_plus_form_encode.
  induction s as [|c s [IH1 IH2]]; [split; [done | simpl; lia] |].
  cbn [form_encode].
  destruct (EncodingExtra.form_encode_char_facts c) as (_ & Hall & Hlen).
  rewrite EncodingExtra.all_app, EncodingExtra.length_app, Hall, IH1.
  split; [done |]. simpl String.length. lia.
Qed.

(** X6: a string of unreserved characters (letters, digits, [_.-~]) is
    left unchanged by [quote_plus], so encoding it a second time changes
    nothing either. *)
Theorem quote_plus_unreserved (s : string) :
  Str.all Urllib.always_safe s = true ->
  Urllib.quote_plus s = s /\
  Urllib.quote_plus (Urllib.quote_plus s) = Urllib.quote_plus s.
Proof.
  intros Hs.
  assert (Urllib.quote_plus s = s) as Hid.
  { rewrite UrllibFacts.quote_plus_form_encode.
    induction s as [|c s IH]; [done |]. simpl in Hs.
    apply andb_true_iff in Hs as [Hc Hs]. cbn [form_encode].
    by rewrite (EncodingExtra.safe_char c Hc), (IH Hs). }
  by rewrite !Hid.
Qed.

Lemma quote_plus_unreserved_witness :
  Urllib.quote_plus "dar17" = "dar17" /\
  Urllib.quote_plus (Urllib.quote_plus "dar17") = Urllib.quote_plus "dar17".
Proof. apply (quote_plus_unreserved "dar17"). reflexivity. Defined.

(** X7: for a non-empty map, splitting the query string [urlencode] builds
    on ampersands gives one [key=value] field per item, in order, and decoding
    the fields gives the map back. *)
Theorem urlencode_parse (q : dict string) :
  q <> [] ->
  Str.split "&" (Urllib.urlencode q) = Urllib.encode_pair <$> q /\
  parse_query (Urllib.urlencode q) = q.
Proof.
  intros Hq.
  assert (Str.split "&" (Urllib.urlencode q) = Urllib.encode_pair <$> q) as Hsplit.
  { unfold Urllib.urlencode. apply StrFacts.split_join.
    - by destruct q.
    - apply Forall_forall. intros x Hx.
      apply list_elem_of_fmap in Hx as (kv & -> & _).
      apply UrllibFacts.encode_pair_clean. }
  split; [exact Hsplit |].
  unfold parse_query. rewrite Hsplit, <- list_fmap_compose.
  rewrite <- (list_fmap_id q) at 2. apply list_fmap_ext.
  intros i kv _. apply EncodingExtra.parse_encode_pair.
Qed.

Lemma urlencode_parse_witness :
  parse_query "fetch=email%2Ctitle&flatten=true"
  = [("fetch", "email,title"); ("flatten", "true")].
Proof.
  apply (urlencode_parse [("fetch", "email,title"); ("flatten", "true")]).
  discriminate.
Defined.

Module FormatExtra.
Import Str StrFacts.

Lemma fmt_go_literal (lit rest : string) (d : dict string) :
  mem "%" lit = false ->
  fmt_go FLit (lit +:+ rest) d = out ← fmt_go FLit rest d; Ret (lit +:+ out).
Proof.
  induction lit as [|c lit IH]; intros Hlit.
  - simpl. by destruct (fmt_go FLit rest d).
  - simpl in Hlit. destruct (decide (c = "%"%char)) as [|Hc]; [done |].
    cbn [String.append fmt_go]. rewrite decide_False by done.
    rewrite (IH Hlit). by destruct (fmt_go FLit rest d).
Qed.

Lemma fmt_go_key (key rest acc : string) (d : dict string) :
  mem "(" key = false -> mem ")" key = false ->
  fmt_go (FKey 1 acc) (key +:+ String ")" rest) d
  = match Dict.get (acc +:+ key) d with
    | Some v => fmt_go (FConv v) rest d
    | None => Raise (KeyError (acc +:+ key))
    end.
Proof.
  revert acc. induction key as [|c key IH]; intros acc Ho Hc.
  - simpl. by rewrite append_nil_r.
  - simpl in Ho, Hc.
    destruct (decide (c = "("%char)) as [|Hc1]; [done |].
    destruct (decide (c = ")"%char)) as [|Hc2]; [done |].
    cbn [String.append fmt_go]. rewrite !decide_False by done.
    rewrite (IH _ Ho Hc). rewrite append_assoc. done.
Qed.

End FormatExtra.

(** X8: a template without a percent sign is formatted to itself,
    whatever the path parameters are: parameters no placeholder names are
    ignored and no key is required. *)
Theorem py_format_literal (fmt : string) (d : dict string) :
  Str.mem "%" fmt = false -> py_format fmt d = Ret fmt.
Proof.
  intros H. unfold py_format.
  rewrite <- (StrFacts.append_nil_r fmt) at 1.
  rewrite (FormatExtra.fmt_go_literal fmt "" d H). simpl.
  by rewrite StrFacts.append_nil_r.
Qed.

Lemma py_format_literal_witness :
  py_format "api/v1/version" [("unused", "x")] = Ret "api/v1/version".
Proof. apply py_format_literal. reflexivity. Defined.

(** X9: in a template that starts with literal text and a placeholder
    [%(key)s], formatting raises [KeyError(key)] when [key] is absent,
    whatever follows the placeholder; when [key] is present and the rest of
    the template formats to [out], the result is the literal text, the value
    stored under [key], then [out]. *)
Theorem py_format_placeholder (lit key rest : string) (d : dict string) :
  Str.mem "%" lit = false ->
  Str.mem "(" key = false -> Str.mem ")" key = false ->
  (Dict.get key d = None ->
   py_format (lit +:+ "%(" +:+ key +:+ ")s" +:+ rest) d = Raise (KeyError key)) /\
  (forall v out,
     Dict.get key d = Some v -> py_format rest d = Ret out ->
     py_format (lit +:+ "%(" +:+ key +:+ ")s" +:+ rest) d
     = Ret (lit +:+ v +:+ out)).
Proof.
  intros Hlit Ho Hc.
  assert (py_format (lit +:+ "%(" +:+ key +:+ ")s" +:+ rest) d
          = match Dict.get key d with
            | Some v => out ← py_format rest d; Ret (lit +:+ v +:+ out)
            | None => Raise (KeyError key)
            end) as Heq.
  { unfold py_format.
    rewrite (FormatExtra.fmt_go_literal lit _ d Hlit).
    change ("%(" +:+ key +:+ ")s" +:+ rest)
      with (String "%" (String "(" (key +:+ String ")" (String "s" rest)))).
    cbn [fmt_go]. rewrite decide_True by done.
    rewrite decide_False by done. rewrite decide_True by done.
    rewrite (FormatExtra.fmt_go_key key _ "" d Ho Hc). simpl (_ +:+ key).
    destruct (Dict.get key d) as [v|]; [| done].
    cbn [fmt_go]. rewrite decide_True by done.
    by destruct (fmt_go FLit rest d). }
  rewrite Heq. split.
  - by intros ->.
  - intros v out -> Hrest. by rewrite Hrest.
Qed.

Lemma py_format_placeholder_witness :
  py_format "api/v1/person/%(scheme)s/x" [("identifier", "dar17")]
  = Raise (KeyError "scheme").
Proof.
  apply (py_format_placeholder "api/v1/person/" "scheme" "/x"
           [("identifier", "dar17")]); reflexivity.
Defined.

Module BuildUrlExtra.
Import Str StrFacts Urllib.

Lemma build_url_raise self path pl w (d : dict string) ql e :
  dicts w !! pl = Some d -> wf d ->
  py_format path (map_values quote_plus d) = Raise e ->
  _build_url self path pl ql w
  = (Raise e, with_dicts <[pl := map_values quote_plus d]> w).
Proof.
  intros Hd Hwf Hp. unfold _build_url.
  rewrite (bind_ret _ _ _ _ _ (get_dict_run _ _ _ Hd)).
  rewrite (bind_ret _ _ _ _ _
             (quote_items_run pl d Hwf (length d) 0 w (Nat.add_0_r _) Hd)).
  set (d' := map_values quote_plus d).
  set (w1 := with_dicts <[pl := d']> w).
  assert (dicts w1 !! pl = Some d') as Hd1 by apply lookup_insert_eq.
  rewrite (bind_ret _ _ _ _ _ (get_dict_run _ _ _ Hd1)).
  rewrite (bind_raise (lift (py_format path d')) _ w1 w1 e); [done |].
  unfold lift. f_equal. exact Hp.
Qed.

Lemma py_format_slash (t : string) (d : dict string) :
  py_format ("/" +:+ t) d = out ← py_format t d; Ret ("/" +:+ out).
Proof. apply (FormatExtra.fmt_go_literal "/" t d). reflexivity. Qed.

End BuildUrlExtra.

(** X10: when the template names a key the path parameters lack,
    [_build_url] raises [KeyError], but only after it has overwritten the
    values of the caller's path parameter map with their encodings; the query
    parameter map is not touched ([flatten] is not added) and nothing is
    sent. *)
Theorem build_url_missing_key self path pl ql w (d q : dict string) key :
  dicts w !! pl = Some d -> dicts w !! ql = Some q -> pl <> ql -> wf d ->
  py_format path (map_values Urllib.quote_plus d) = Raise (KeyError key) ->
  exists w',
    _build_url self path pl ql w = (Raise (KeyError key), w') /\
    dicts w' !! pl = Some (map_values Urllib.quote_plus d) /\
    dicts w' !! ql = Some q /\
    sent w' = sent w.
Proof.
  intros Hd Hq Hne Hwf Hp. eexists. split.
  - by apply BuildUrlExtra.build_url_raise.
  - cbn [dicts with_dicts sent]. split_and!; [apply lookup_insert_eq | | done].
    by rewrite lookup_insert_ne.
Qed.

Lemma build_url_missing_key_witness :
  exists w',
    _build_url 0%nat "api/v1/inst/%(instid)s" 0%nat 1%nat demo_world
    = (Raise (KeyError "instid"), w') /\
    dicts w' !! 0%nat = Some [("scheme", "crs+id"); ("identifier", "d%26r%2F17")] /\
    dicts w' !! 1%nat = Some [("fetch", "email,title")].
Proof.
  destruct (build_url_missing_key 0%nat "api/v1/inst/%(instid)s" 0%nat 1%nat
              demo_world demo_path_params [("fetch", "email,title")] "instid")
    as (w' & Hrun & Hp & Hq & _);
    [reflexivity | reflexivity | discriminate | exact demo_wf | reflexivity |].
  exists w'. split; [exact Hrun |]. split; [exact Hp | exact Hq].
Defined.

(** X11: one leading slash of the template makes no difference:
    [_build_url] returns the same URL and leaves the same store for ["/" + t]
    as for [t], when the formatted [t] does not itself start with a slash; the
    URL is the base path followed by the formatted path, a question mark and
    the query string. *)
Theorem build_url_leading_slash self t pl ql w c (d q : dict string) p :
  conns w !! self = Some c -> dicts w !! pl = Some d -> dicts w !! ql = Some q ->
  pl <> ql -> wf d ->
  py_format t (map_values Urllib.quote_plus d) = Ret p ->
  Str.startswith "/" p = false ->
  _build_url self ("/" +:+ t) pl ql w = _build_url self t pl ql w /\
  fst (_build_url self t pl ql w)
  = Ret (url_base c +:+ p +:+ "?" +:+ Urllib.urlencode (with_flatten q)).
Proof.
  intros Hc Hd Hq Hne Hwf Hp Hslash.
  assert (py_format ("/" +:+ t) (map_values Urllib.quote_plus d)
          = Ret ("/" +:+ p)) as Hp'
    by (by rewrite BuildUrlExtra.py_format_slash, Hp).
  rewrite (build_url_run self _ pl ql w c d q _ Hc Hd Hq Hne Hwf Hp').
  rewrite (build_url_run self _ pl ql w c d q _ Hc Hd Hq Hne Hwf Hp).
  unfold relative_path. rewrite Hslash. by destruct p.
Qed.

Lemma build_url_leading_slash_witness :
  _build_url 0%nat ("/" +:+ demo_path) 0%nat 1%nat demo_world
  = _build_url 0%nat demo_path 0%nat 1%nat demo_world.
Proof.
  apply (build_url_leading_slash 0%nat demo_path 0%nat 1%nat demo_world
           demo_conn demo_path_params [("fetch", "email,title")]
           "api/v1/person/crs+id/d%26r%2F17");
    try reflexivity; [discriminate | exact demo_wf].
Defined.

Module InitExtra.
Import ConnectionFacts.

Lemma init_full host_ port_ base cc sess w :
  match sess with Some s => is_Some (sessions w !! s) | None => True end ->
  __init__ host_ port_ base cc sess w
  = (Ret (fresh_loc (conns w)), after_init host_ port_ base cc sess w).
Proof.
  intros Hsess. unfold __init__, after_init, init_verify.
  fold (normalized_base base).
  destruct sess as [s|]; cbn [init_session] in *.
  - destruct Hsess as [so Hso]. rewrite Hso.
    rewrite bind_run, (bind_ret _ _ _ _ _ (get_session_run _ _ _ Hso)).
    cbn [mret M_ret]. destruct cc; cbn [negb].
    + rewrite bind_run. cbn [mret M_ret].
      erewrite init_tail; [| exact Hso]. by rewrite List.app_nil_r.
    + rewrite bind_run, (bind_ret _ _ _ _ _ (get_session_run _ _ _ Hso)).
      rewrite bind_run. cbn [put_session warn].
      erewrite init_tail; [| apply lookup_insert_eq].
      simpl. by rewrite insert_insert_eq.
  - rewrite bind_run. cbn [new_session]. destruct cc; cbn [negb].
    + rewrite bind_run. cbn [mret M_ret].
      erewrite init_tail; [| apply lookup_insert_eq].
      simpl. by rewrite insert_insert_eq, List.app_nil_r.
    + rewrite bind_run.
      rewrite (bind_ret (get_session _) _ _ _ _
                 (get_session_run _ _ (with_sessions _ w) (lookup_insert_eq _ _ _))).
      rewrite bind_run. cbn [put_session warn].
      erewrite init_tail; [| apply lookup_insert_eq].
      simpl. by rewrite !insert_insert_eq.
Qed.

Lemma last_char_app (s : string) (c : ascii) :
  Str.last_char (s +:+ String c "") = Some c.
Proof.
  induction s as [|x s IH]; [done |]. cbn [String.append].
  destruct (s +:+ String c "") eqn:E; [by destruct s |].
  simpl. exact IH.
Qed.

Lemma normalized_base_slashes (b : string) :
  Str.startswith "/" (normalized_base b) = true /\
  Str.endswith_char "/" (normalized_base b) = true.
Proof.
  unfold normalized_base.
  set (b1 := if negb (Str.startswith "/" b) then "/" +:+ b else b).
  assert (Str.startswith "/" b1 = true) as Hb1.
  { unfold b1. destruct (Str.startswith "/" b) eqn:E; [done |].
    simpl. unfold Str.startswith. simpl. by destruct b. }
  destruct (Str.endswith_char "/" b1) eqn:E; cbn [negb]; [done |].
  split.
  - clearbody b1. rewrite StrFacts.startswith_app; [done |]. by destruct b1.
  - unfold Str.endswith_char. rewrite last_char_app. by rewrite decide_True.
Qed.

Lemma normalized_base_id (b : string) :
  Str.startswith "/" b = true -> Str.endswith_char "/" b = true ->
  normalized_base b = b.
Proof. intros H1 H2. unfold normalized_base. by rewrite H1; cbn [negb]; rewrite H2. Qed.

End InitExtra.

(** X12: a new connection's [url_base] starts and ends with a slash
    whatever base path was given; a base path that already does is stored
    unchanged, and normalising is idempotent. *)
Theorem init_normalizes_base host_ port_ base cc w :
  exists self w1 c,
    __init__ host_ port_ base cc None w = (Ret self, w1) /\
    conns w1 !! self = Some c /\
    Str.startswith "/" (url_base c) = true /\
    Str.endswith_char "/" (url_base c) = true /\
    (Str.startswith "/" base = true -> Str.endswith_char "/" base = true ->
     url_base c = base) /\
    normalized_base (url_base c) = url_base c.
Proof.
  eexists _, _, _. split; [by apply InitExtra.init_full |].
  split; [apply lookup_insert_eq |]. cbn [url_base].
  destruct (InitExtra.normalized_base_slashes base) as [H1 H2].
  split_and!; [done | done | apply InitExtra.normalized_base_id
              | by apply InitExtra.normalized_base_id].
Qed.

Module SetterExtra.
Import ConnectionFacts.

Lemma run_setters_any self ops : forall c so w,
  conns w !! self = Some c -> sessions w !! session c = Some so ->
  run_setters self ops w
  = (Ret tt,
     with_sessions
       <[session c := match ops with
                      | [] => so
                      | _ => authorized (foldl apply_setter c ops) so
                      end]>
       (with_conns <[self := foldl apply_setter c ops]> w)).
Proof.
  induction ops as [|op ops IH]; intros c so w Hc Hs.
  - simpl. f_equal. destruct w. unfold with_sessions, with_conns.
    simpl in *. f_equal; symmetry; by apply insert_id.
  - cbn [run_setters foldl].
    rewrite (bind_ret _ _ _ _ _ (run_setter_run _ _ _ op _ Hc Hs)).
    set (c1 := apply_setter c op).
    rewrite (IH c1 (authorized c1 so)).
    + unfold c1. rewrite session_apply_setter.
      destruct w. unfold with_sessions, with_conns. simpl.
      f_equal. f_equal; rewrite insert_insert_eq; [| done].
      f_equal. by destruct ops.
    + apply lookup_insert_eq.
    + unfold c1. rewrite session_apply_setter. apply lookup_insert_eq.
Qed.

Lemma foldl_apply_setter_fields c ops :
  host (foldl apply_setter c ops) = host c /\
  port (foldl apply_setter c ops) = port c /\
  url_base (foldl apply_setter c ops) = url_base c /\
  session (foldl apply_setter c ops) = session c.
Proof.
  revert c. induction ops as [|op ops IH]; intros c; [done |].
  cbn [foldl]. destruct (IH (apply_setter c op)) as (-> & -> & -> & ->).
  by destruct op.
Qed.

End SetterExtra.

(** X16: [set_username] and [set_password] commute: either order leaves
    the same store, and the credentials in use are the pair of the two
    arguments, with ["anonymous"] and [""] standing in for [None]. *)
Theorem setters_commute self c so w u p :
  conns w !! self = Some c -> sessions w !! session c = Some so ->
  run_setters self [SetUsername u; SetPassword p] w
  = run_setters self [SetPassword p; SetUsername u] w /\
  credentials_in_use self (snd (run_setters self [SetUsername u; SetPassword p] w))
  = Some (default "anonymous" u, default "" p).
Proof.
  intros Hc Hs.
  rewrite !(SetterExtra.run_setters_any self _ c so w Hc Hs).
  split; [done |]. cbn [snd foldl apply_setter].
  erewrite ConnectionFacts.credentials_in_use_eq;
    [| apply lookup_insert_eq | apply lookup_insert_eq].
  by destruct u, p.
Qed.

Lemma setters_commute_witness :
  run_setters 0%nat [SetUsername (Some "mygroup"); SetPassword (Some "secret")]
    demo_world
  = run_setters 0%nat [SetPassword (Some "secret"); SetUsername (Some "mygroup")]
      demo_world.
Proof.
  apply (setters_commute 0%nat demo_conn (Session (Some ("anonymous", "")) true)
           demo_world (Some "mygroup") (Some "secret")); reflexivity.
Defined.

(** X17: any sequence of [set_username] and [set_password] calls succeeds,
    sends nothing, issues no warning, and changes neither parameter maps,
    other connections, other sessions, the connection's [host], [port],
    [url_base] and session, nor the session's [verify] setting. *)
Theorem setters_frame self c so w ops :
  conns w !! self = Some c -> sessions w !! session c = Some so ->
  exists w' c' so',
    run_setters self ops w = (Ret tt, w') /\
    conns w' !! self = Some c' /\ sessions w' !! session c = Some so' /\
    host c' = host c /\ port c' = port c /\ url_base c' = url_base c /\
    session c' = session c /\ verify so' = verify so /\
    dicts w' = dicts w /\ sent w' = sent w /\ warned w' = warned w /\
    (forall l, l <> self -> conns w' !! l = conns w !! l) /\
    (forall l, l <> session c -> sessions w' !! l = sessions w !! l).
Proof.
  intros Hc Hs.
  eexists _, (foldl apply_setter c ops),
    (match ops with [] => so | _ => authorized (foldl apply_setter c ops) so end).
  split; [by apply SetterExtra.run_setters_any |].
  cbn [conns sessions dicts sent warned with_sessions with_conns].
  destruct (SetterExtra.foldl_apply_setter_fields c ops) as (H1 & H2 & H3 & H4).
  split_and!; try done; try apply lookup_insert_eq.
  - by destruct ops.
  - intros l Hl. by rewrite lookup_insert_ne.
  - intros l Hl. by rewrite lookup_insert_ne.
Qed.

Lemma setters_frame_witness :
  exists w',
    run_setters 0%nat [SetUsername None; SetPassword (Some "pw")] demo_world
    = (Ret tt, w') /\ sent w' = [] /\ dicts w' = dicts demo_world.
Proof.
  destruct (setters_frame 0%nat demo_conn (Session (Some ("anonymous", "")) true)
              demo_world [SetUsername None; SetPassword (Some "pw")])
    as (w' & c' & so' & Hrun & _ & _ & _ & _ & _ & _ & _ & Hd & Hs & _);
    [reflexivity | reflexivity |].
  exists w'. split; [exact Hrun |]. split; [exact Hs | exact Hd].
Defined.

(** X13: [__init__] returns a connection object that did not exist before,
    sends nothing, and leaves all parameter maps, all other connections and
    all sessions other than its own untouched; without a [session] argument
    its session is a new one. *)
Theorem init_frame host_ port_ base cc sess w :
  match sess with Some s => is_Some (sessions w !! s) | None => True end ->
  exists self w1,
    __init__ host_ port_ base cc sess w = (Ret self, w1) /\
    conns w !! self = None /\
    dicts w1 = dicts w /\ sent w1 = sent w /\
    (forall l, l <> self -> conns w1 !! l = conns w !! l) /\
    (forall l, l <> init_session sess w -> sessions w1 !! l = sessions w !! l) /\
    (sess = None -> sessions w !! init_session sess w = None).
Proof.
  intros Hsess. eexists _, _. split; [by apply InitExtra.init_full |].
  unfold after_init. cbn [conns sessions dicts sent].
  split_and!; try done.
  - apply fresh_loc_None.
  - intros l Hl. by rewrite lookup_insert_ne.
  - intros l Hl. by rewrite lookup_insert_ne.
  - intros ->. apply fresh_loc_None.
Qed.

Lemma init_frame_witness :
  exists self w1,
    createTestConnection demo_world = (Ret self, w1) /\
    self = 1%nat /\ conns w1 !! 0%nat = Some demo_conn /\ sent w1 = [].
Proof.
  destruct (init_frame "lookup-test.srv.uis.cam.ac.uk" 443 "" true None
              demo_world I)
    as (self & w1 & Hrun & _ & _ & Hsent & Hconns & _).
  exists self, w1. split; [exact Hrun |].
  assert (self = 1%nat) as ->.
  { assert (fst (createTestConnection demo_world) = Ret 1%nat) as H
      by (vm_compute; reflexivity).
    unfold createTestConnection in H. rewrite Hrun in H. by injection H. }
  split; [done |]. split; [| exact Hsent].
  rewrite Hconns by discriminate. reflexivity.
Defined.

(** X14: with [check_certs=False] the constructor turns [verify] off on
    the connection's session and issues exactly one warning; with
    [check_certs=True] it issues none, a session it creates verifies
    certificates and a supplied session keeps its [verify] setting. *)
Theorem init_check_certs host_ port_ base cc sess w :
  match sess with Some s => is_Some (sessions w !! s) | None => True end ->
  exists self w1 so1,
    __init__ host_ port_ base cc sess w = (Ret self, w1) /\
    sessions w1 !! init_session sess w = Some so1 /\
    (cc = false ->
     verify so1 = false /\ warned w1 = warned w ++ [check_certs_warning]) /\
    (cc = true ->
     warned w1 = warned w /\
     match sess with
     | None => verify so1 = true
     | Some s => Some (verify so1) = verify <$> sessions w !! s
     end).
Proof.
  intros Hsess. eexists _, _, _. split; [by apply InitExtra.init_full |].
  unfold after_init. cbn [sessions warned].
  split; [apply lookup_insert_eq |]. cbn [verify]. unfold init_verify.
  split; intros ->; [done |]. rewrite List.app_nil_r. split; [done |].
  destruct sess as [s|]; [| done]. destruct Hsess as [so ->]. done.
Qed.

Lemma init_check_certs_witness :
  exists self w1,
    createLocalConnection empty_world = (Ret self, w1) /\
    (verify <$> sessions w1 !! 0%nat) = Some false /\
    warned w1 = [check_certs_warning].
Proof.
  destruct (init_check_certs "localhost" 8443 "ibis" false None empty_world I)
    as (self & w1 & so1 & Hrun & Hso & Hoff & _).
  destruct (Hoff eq_refl) as [Hv Hw].
  exists self, w1. split; [exact Hrun |].
  split; [| exact Hw].
  transitivity (verify <$> Some so1); [f_equal; exact Hso |].
  simpl. by rewrite Hv.
Defined.

(** X15: constructing a connection on the session object of an
    existing connection resets that session's credentials to
    [("anonymous", "")]: the existing connection keeps its [username] and
    [password] fields but sends anonymous credentials from then on. *)
Theorem init_resets_shared_session host_ port_ base cc w c1 k1 so :
  conns w !! c1 = Some k1 -> sessions w !! session k1 = Some so ->
  exists self w1,
    __init__ host_ port_ base cc (Some (session k1)) w = (Ret self, w1) /\
    self <> c1 /\
    conns w1 !! c1 = Some k1 /\
    credentials_in_use c1 w1 = Some ("anonymous", "") /\
    credentials_in_use self w1 = Some ("anonymous", "").
Proof.
  intros Hk1 Hso. eexists _, _.
  split; [apply InitExtra.init_full; by eexists |].
  assert (fresh_loc (conns w) <> c1) as Hne.
  { intros <-. by rewrite fresh_loc_None in Hk1. }
  split; [done |].
  assert (conns (after_init host_ port_ base cc (Some (session k1)) w) !! c1
          = Some k1) as Hk1'.
  { unfold after_init. cbn [conns]. by rewrite lookup_insert_ne. }
  split; [done |]. split.
  - erewrite ConnectionFacts.credentials_in_use_eq; [| exact Hk1' |].
    2: { unfold after_init. cbn [sessions init_session]. apply lookup_insert_eq. }
    done.
  - erewrite ConnectionFacts.credentials_in_use_eq.
    2: { unfold after_init. cbn [conns]. apply lookup_insert_eq. }
    2: { unfold after_init. cbn [sessions session init_session].
         apply lookup_insert_eq. }
    done.
Qed.

Lemma init_resets_shared_session_witness :
  credentials_in_use 0%nat group_world = Some ("mygroup", "secret") /\
  exists self w1,
    __init__ "b.example.org" 443 "" true (Some 0%nat) group_world = (Ret self, w1) /\
    credentials_in_use 0%nat w1 = Some ("anonymous", "").
Proof.
  split; [vm_compute; reflexivity |].
  destruct (init_resets_shared_session "b.example.org" 443 "" true group_world
              0%nat
              (Connection "www.lookup.cam.ac.uk" 443 "/" 0%nat
                 (Some "mygroup") (Some "secret"))
              (Session (Some ("mygroup", "secret")) true))
    as (self & w1 & Hrun & _ & _ & Hcred & _);
    [vm_compute; reflexivity | vm_compute; reflexivity |].
  exists self, w1. split; [exact Hrun | exact Hcred].
Defined.

Module InvokeExtra.
Import Urllib ConnectionFacts FrameFacts InvokeFacts.

Lemma header_get_absent (name : string) (hs : dict string) :
  (forall k v, (k, v) ∈ hs -> lower k <> lower name) ->
  header_get name hs = Raise (KeyError (lower name)).
Proof.
  induction hs as [|[k v] hs IH]; intros Habs; [done |].
  cbn [header_get]. rewrite decide_False.
  - apply IH. intros k' v' Hin. apply (Habs k' v'). by apply list_elem_of_further.
  - apply (Habs k v). apply list_elem_of_here.
Qed.

Lemma coerced_empty (fp : dict value) (fps : dict string) :
  wf fp -> _params_to_strings fp = Ret fps ->
  (0 <? length fps)%nat = negb (forallb (fun kv => is_none (snd kv)) fp).
Proof.
  intros Hwf Hrun.
  pose proof (CoercionExtra.params_loop_keys fp [] fps Hrun Hwf) as Hkeys.
  simpl in Hkeys. apply (f_equal length) in Hkeys.
  unfold keys in Hkeys. rewrite !length_fmap in Hkeys. rewrite Hkeys.
  clear. induction fp as [|[k v] fp IH]; [done |].
  rewrite filter_cons. cbn [snd forallb]. destruct (is_none v); cbn [andb].
  - rewrite decide_False by done. exact IH.
  - by rewrite decide_True.
Qed.

End InvokeExtra.

Section InvokeExtras.
Import Urllib ConnectionFacts FrameFacts InvokeFacts.
Variable transport : list request -> request -> res response.
Variable parse_xml : string -> res IbisResult.
Variable new_error : Z -> string -> IbisError.

(** X18: when the response's content type is exactly [application/xml]
    (the header name in any case), [invoke_method] returns whatever
    [parse_xml] makes of the response body, a raised parse failure included,
    after exactly one request. *)
Theorem invoke_xml_is_parsed
    w self c so method path pp qp fp pps qps fps p resp :
  conns w !! self = Some c -> sessions w !! session c = Some so ->
  _params_to_strings pp = Ret pps ->
  _params_to_strings qp = Ret qps ->
  _params_to_strings fp = Ret fps ->
  py_format path (map_values quote_plus pps) = Ret p ->
  transport (sent w) (the_request c so method p qps fps) = Ret resp ->
  header_get "Content-type" (headers resp) = Ret "application/xml" ->
  exists w',
    invoke_method transport parse_xml new_error self method path pp qp fp w
    = (parse_xml (content resp), w') /\
    sent w' = sent w ++ [the_request c so method p qps fps].
Proof.
  intros Hc Hs Hpp Hqp Hfp Hp Hresp Hct.
  destruct (invoke_method_run transport parse_xml new_error w self c so method path
              pp qp fp pps qps fps p Hc Hs Hpp Hqp Hfp Hp)
    as (w' & -> & Hsent & _).
  exists w'. split; [| exact Hsent]. f_equal.
  rewrite Hresp. unfold classify_response. simpl. rewrite Hct. reflexivity.
Qed.

(** X19: a fault raised by the transport (no connection, timeout) is not
    caught: [invoke_method] raises it, after the one request has been
    made. *)
Theorem invoke_transport_fault
    w self c so method path pp qp fp pps qps fps p e :
  conns w !! self = Some c -> sessions w !! session c = Some so ->
  _params_to_strings pp = Ret pps ->
  _params_to_strings qp = Ret qps ->
  _params_to_strings fp = Ret fps ->
  py_format path (map_values quote_plus pps) = Ret p ->
  transport (sent w) (the_request c so method p qps fps) = Raise e ->
  exists w',
    invoke_method transport parse_xml new_error self method path pp qp fp w
    = (Raise e, w') /\
    sent w' = sent w ++ [the_request c so method p qps fps].
Proof.
  intros Hc Hs Hpp Hqp Hfp Hp Hresp.
  destruct (invoke_method_run transport parse_xml new_error w self c so method path
              pp qp fp pps qps fps p Hc Hs Hpp Hqp Hfp Hp)
    as (w' & -> & Hsent & _).
  exists w'. split; [| exact Hsent]. by rewrite Hresp.
Qed.

(** X20: a response without a [Content-type] header makes
    [invoke_method] raise [KeyError("content-type")] instead of returning a
    result. *)
Theorem invoke_missing_content_type
    w self c so method path pp qp fp pps qps fps p resp :
  conns w !! self = Some c -> sessions w !! session c = Some so ->
  _params_to_strings pp = Ret pps ->
  _params_to_strings qp = Ret qps ->
  _params_to_strings fp = Ret fps ->
  py_format path (map_values quote_plus pps) = Ret p ->
  transport (sent w) (the_request c so method p qps fps) = Ret resp ->
  (forall k v, (k, v) ∈ headers resp -> lower k <> "content-type") ->
  exists w',
    invoke_method transport parse_xml new_error self method path pp qp fp w
    = (Raise (KeyError "content-type"), w').
Proof.
  intros Hc Hs Hpp Hqp Hfp Hp Hresp Habs.
  destruct (invoke_method_run transport parse_xml new_error w self c so method path
              pp qp fp pps qps fps p Hc Hs Hpp Hqp Hfp Hp)
    as (w' & -> & _).
  exists w'. f_equal. rewrite Hresp. unfold classify_response. simpl.
  by rewrite (InvokeExtra.header_get_absent "Content-type" _ Habs).
Qed.

(** X22: invoking twice with the same arguments makes the same
    request twice: [invoke_method] works on fresh copies of the parameter
    maps, so nothing is encoded twice (unlike two calls of [_build_url] on one
    map). *)
Theorem invoke_twice_same_request
    w self c so method path pp qp fp pps qps fps p :
  conns w !! self = Some c -> sessions w !! session c = Some so ->
  _params_to_strings pp = Ret pps ->
  _params_to_strings qp = Ret qps ->
  _params_to_strings fp = Ret fps ->
  py_format path (map_values quote_plus pps) = Ret p ->
  let w1 := snd (invoke_method transport parse_xml new_error self method path pp qp fp w) in
  let w2 := snd (invoke_method transport parse_xml new_error self method path pp qp fp w1) in
  sent w2 = sent w ++ [the_request c so method p qps fps;
                       the_request c so method p qps fps].
Proof.
  intros Hc Hs Hpp Hqp Hfp Hp. cbn zeta.
  destruct (invoke_method_run transport parse_xml new_error w self c so method path
              pp qp fp pps qps fps p Hc Hs Hpp Hqp Hfp Hp)
    as (w1 & -> & Hsent1 & Hsess1 & Hconns1).
  cbn [snd].
  assert (conns w1 !! self = Some c) as Hc1 by (by rewrite Hconns1).
  assert (sessions w1 !! session c = Some so) as Hs1 by (by rewrite Hsess1).
  destruct (invoke_method_run transport parse_xml new_error w1 self c so method path
              pp qp fp pps qps fps p Hc1 Hs1 Hpp Hqp Hfp Hp)
    as (w2 & -> & Hsent2 & _).
  cbn [snd]. by rewrite Hsent2, Hsent1, <- app_assoc.
Qed.

(** X23: whatever happens, an invocation makes at most one request
    (no retry) and changes no session and no connection; the request, if any,
    has the given method, the header [Accept: application/xml], and the
    session's credentials and [verify] setting. *)
Theorem invoke_at_most_one_request w self c so method path pp qp fp :
  conns w !! self = Some c -> sessions w !! session c = Some so ->
  let w' := snd (invoke_method transport parse_xml new_error self method path pp qp fp w) in
  sessions w' = sessions w /\ conns w' = conns w /\
  (length (new_requests w w') <= 1)%nat /\
  forall rq, rq ∈ new_requests w w' ->
    rq_method rq = method /\
    rq_headers rq = [("Accept", "application/xml")] /\
    rq_auth rq = auth so /\ rq_verify rq = verify so.
Proof.
  intros Hc Hs. cbn zeta.
  pose proof (invoke_method_sends transport parse_xml new_error w self c so method path
                pp qp fp Hc Hs) as Hone.
  pose proof Hone as (Hsess & Hconns & Hsent).
  split_and!; [done | done | |].
  - unfold new_requests. destruct Hsent as [-> | (rq & -> & _)].
    + rewrite drop_all. simpl. lia.
    + rewrite drop_app_length. simpl. lia.
  - intros rq Hin.
    destruct (new_requests_one _ _ _ _ _ Hone Hin) as (? & ? & ? & ?). done.
Qed.

(** X24: the request carries form data exactly when some form parameter
    is not [None]: then the data are the coerced form parameters, otherwise
    the request has no body. *)
Theorem invoke_form_data
    w self c so method path pp qp fp pps qps fps p :
  conns w !! self = Some c -> sessions w !! session c = Some so ->
  wf fp ->
  _params_to_strings pp = Ret pps ->
  _params_to_strings qp = Ret qps ->
  _params_to_strings fp = Ret fps ->
  py_format path (map_values quote_plus pps) = Ret p ->
  exists r w' rq,
    invoke_method transport parse_xml new_error self method path pp qp fp w = (r, w') /\
    sent w' = sent w ++ [rq] /\
    rq_data rq = if forallb (fun kv => is_none (snd kv)) fp then None
                 else Some fps.
Proof.
  intros Hc Hs Hwf Hpp Hqp Hfp Hp.
  destruct (invoke_method_run transport parse_xml new_error w self c so method path
              pp qp fp pps qps fps p Hc Hs Hpp Hqp Hfp Hp)
    as (w' & Hrun & Hsent & _).
  eexists _, w', _. split; [exact Hrun |]. split; [exact Hsent |].
  cbn [the_request rq_data].
  rewrite (InvokeExtra.coerced_empty fp fps Hwf Hfp).
  by destruct (forallb _ fp).
Qed.

End InvokeExtras.

Section InvokeFailures.
Import Urllib ConnectionFacts FrameFacts InvokeFacts.
Variable transport : list request -> request -> res response.
Variable parse_xml : string -> res IbisResult.
Variable new_error : Z -> string -> IbisError.

(** X21: when a coercion or the formatting of the path raises an
    exception of Python, [invoke_method] raises the same exception (that of
    the first step to fail: path, query, form parameters, then the template)
    and no request is made; sessions and connections are unchanged.  A
    template whose conversion specifier is outside the modelled fragment is
    not covered. *)
Theorem invoke_fails_before_sending w self c method path pp qp fp e :
  conns w !! self = Some c ->
  prepared path pp qp fp = Raise e ->
  modelled e ->
  exists w',
    invoke_method transport parse_xml new_error self method path pp qp fp w = (Raise e, w') /\
    sent w' = sent w /\ sessions w' = sessions w /\ conns w' = conns w.
Proof.
  intros Hc Hprep _. unfold prepared in Hprep. unfold invoke_method.
  destruct (_params_to_strings pp) as [pps|e1] eqn:Hpp; simpl in Hprep;
    [| injection Hprep as ->; by eexists].
  rewrite bind_run. cbn [lift]. rewrite bind_run. cbn [new_dict].
  set (pl := fresh_loc (dicts w)). set (w1 := with_dicts <[pl := pps]> w).
  destruct (_params_to_strings qp) as [qps|e2] eqn:Hqp; simpl in Hprep;
    [| injection Hprep as ->; by eexists].
  rewrite bind_run. cbn [lift]. rewrite bind_run. cbn [new_dict].
  set (ql := fresh_loc (dicts w1)). set (w2 := with_dicts <[ql := qps]> w1).
  destruct (_params_to_strings fp) as [fps|e3] eqn:Hfp; simpl in Hprep;
    [| injection Hprep as ->; by eexists].
  rewrite bind_run. cbn [lift]. rewrite bind_run. cbn [new_dict].
  set (fl := fresh_loc (dicts w2)). set (w3 := with_dicts <[fl := fps]> w2).
  destruct (py_format path (map_values quote_plus pps)) as [p|e4] eqn:Hp;
    simpl in Hprep; [done |]. injection Hprep as ->.
  assert (dicts w1 !! pl = Some pps) as Hpl1 by apply lookup_insert_eq.
  assert (pl <> ql) as Hne1 by (apply fresh_loc_ne; by eexists).
  assert (dicts w2 !! pl = Some pps) as Hpl2
    by (unfold w2; cbn [dicts with_dicts]; by rewrite lookup_insert_ne).
  assert (pl <> fl) as Hne2 by (apply fresh_loc_ne; by eexists).
  assert (dicts w3 !! pl = Some pps) as Hpl3
    by (unfold w3; cbn [dicts with_dicts]; by rewrite lookup_insert_ne).
  rewrite (bind_ret _ _ _ _ _ (get_conn_run self c w3 Hc)).
  rewrite (bind_raise _ _ _ _ _
             (BuildUrlExtra.build_url_raise self path pl w3 pps ql e Hpl3
                (CoercionFacts.params_to_strings_wf _ _ Hpp) Hp)).
  by eexists.
Qed.

End InvokeFailures.

Lemma invoke_fails_before_sending_witness :
  exists w',
    invoke_method xml_server echo_xml status_only_error 0%nat "GET" "api/v1/inst/%(instid)s"
      [] [] [] demo_world = (Raise (KeyError "instid"), w') /\
    sent w' = [].
Proof.
  destruct (invoke_fails_before_sending xml_server echo_xml status_only_error demo_world 0%nat
              demo_conn "GET" "api/v1/inst/%(instid)s" [] [] []
              (KeyError "instid"))
    as (w' & Hrun & Hsent & _); [reflexivity | reflexivity | discriminate |].
  exists w'. split; [exact Hrun | exact Hsent].
Defined.

Lemma invoke_xml_is_parsed_witness :
  exists w',
    invoke_method xml_server echo_xml status_only_error 0%nat "GET" "api/v1/version" [] [] []
      demo_world = (Ret (Success "<result/>"), w').
Proof.
  destruct (invoke_xml_is_parsed xml_server echo_xml status_only_error demo_world 0%nat demo_conn
              (Session (Some ("anonymous", "")) true) "GET" "api/v1/version"
              [] [] [] [] [] [] "api/v1/version" xml_200)
    as (w' & Hrun & _); try reflexivity.
  exists w'. exact Hrun.
Defined.

Lemma invoke_transport_fault_witness :
  exists w',
    invoke_method dead_server echo_xml status_only_error 0%nat "GET" "api/v1/version" [] [] []
      demo_world = (Raise (Fault "ConnectionError"), w') /\
    length (sent w') = 1%nat.
Proof.
  destruct (invoke_transport_fault dead_server echo_xml status_only_error demo_world 0%nat demo_conn
              (Session (Some ("anonymous", "")) true) "GET" "api/v1/version"
              [] [] [] [] [] [] "api/v1/version" (Fault "ConnectionError"))
    as (w' & Hrun & Hsent); try reflexivity.
  exists w'. split; [exact Hrun |]. by rewrite Hsent.
Defined.

Lemma invoke_missing_content_type_witness :
  exists w',
    invoke_method bare_server echo_xml status_only_error 0%nat "GET" "api/v1/version" [] [] []
      demo_world = (Raise (KeyError "content-type"), w').
Proof.
  apply (invoke_missing_content_type bare_server echo_xml status_only_error demo_world 0%nat
           demo_conn (Session (Some ("anonymous", "")) true) "GET"
           "api/v1/version" [] [] [] [] [] [] "api/v1/version"
           (Response [("Server", "nginx")] 502 "Bad Gateway" "" ""));
    try reflexivity.
  intros k v Hin. apply list_elem_of_singleton in Hin. injection Hin as -> ->.
  discriminate.
Defined.

Lemma invoke_twice_same_request_witness :
  let w1 := snd (invoke_method xml_server echo_xml status_only_error 0%nat "GET" demo_path
                   [("scheme", VStr "crs id"); ("identifier", VStr "d&r/17")]
                   [] [] demo_world) in
  let w2 := snd (invoke_method xml_server echo_xml status_only_error 0%nat "GET" demo_path
                   [("scheme", VStr "crs id"); ("identifier", VStr "d&r/17")]
                   [] [] w1) in
  rq_url <$> sent w2
  = ["https://example.org:443/api/v1/person/crs+id/d%26r%2F17?flatten=true";
     "https://example.org:443/api/v1/person/crs+id/d%26r%2F17?flatten=true"].
Proof.
  cbn zeta.
  rewrite (invoke_twice_same_request xml_server echo_xml status_only_error demo_world 0%nat
             demo_conn (Session (Some ("anonymous", "")) true) "GET" demo_path
             [("scheme", VStr "crs id"); ("identifier", VStr "d&r/17")] [] []
             demo_path_params [] [] "api/v1/person/crs+id/d%26r%2F17");
    reflexivity.
Defined.

Lemma invoke_at_most_one_request_witness :
  (length (new_requests demo_world
             (snd (invoke_method dead_server echo_xml status_only_error 0%nat "POST"
                     "api/v1/%(missing)s" [] [] [] demo_world))) <= 1)%nat.
Proof.
  apply (invoke_at_most_one_request dead_server echo_xml status_only_error demo_world 0%nat
           demo_conn (Session (Some ("anonymous", "")) true) "POST"
           "api/v1/%(missing)s" [] [] []); reflexivity.
Defined.

Lemma invoke_form_data_witness :
  exists r w' rq,
    invoke_method xml_server echo_xml status_only_error 0%nat "PUT" "api/v1/version" [] []
      [("commitComment", VNone)] demo_world = (r, w') /\
    sent w' = [rq] /\ rq_data rq = None.
Proof.
  destruct (invoke_form_data xml_server echo_xml status_only_error demo_world 0%nat demo_conn
              (Session (Some ("anonymous", "")) true) "PUT" "api/v1/version"
              [] [] [("commitComment", VNone)] [] [] [] "api/v1/version")
    as (r & w' & rq & Hrun & Hsent & Hdata); try reflexivity.
  { unfold wf. refine (bool_decide_unpack _ _). vm_compute. exact I. }
  exists r, w', rq. split; [exact Hrun |]. split; [exact Hsent | exact Hdata].
Defined.
